(** * LangChain/main.py: the email-generation workflow

    A shallow embedding of [EmailGenerationSystem]: the [EmailState]
    dictionary, the seven node functions, the router
    [should_send_email], and the stage graph that [_build_graph]
    declares, followed by the properties of the orchestration.

    What lies outside the repository is kept abstract in [Env]: the chat
    model behind [self.llm.invoke], [json.loads], [datetime.now] and
    [strftime], the rendering of a value by an f-string, the two prompt
    templates of [prompt.py], and the file system.  Strings are the
    UTF-8 bytes of the Python text. *)

From Stdlib Require Import String Ascii List ZArith Bool Lia.
From Stdlib Require Import Floats.SpecFloat DecimalString.
Import ListNotations.
Set Warnings "-register-all".
Local Open Scope string_scope.

(** ** Python values *)

(** What [json.loads] can return: [None], [bool], [int], [float], [str],
    [list] and [dict] (insertion-ordered, so an association list). *)
Inductive json : Type :=
| JNull
| JBool (b : bool)
| JInt (n : Z)
| JFloat (f : spec_float)
| JStr (s : string)
| JArr (items : list json)
| JObj (fields : list (string * json)).

(** A [dict] with [str] keys, in insertion order. *)
Definition dict (V : Type) : Type := list (string * V).

Fixpoint dict_lookup {V : Type} (key : string) (d : dict V) : option V :=
  match d with
  | [] => None
  | (k, v) :: rest => if String.eqb k key then Some v else dict_lookup key rest
  end.

(** [d.get(key, default)] *)
Definition dict_get {V : Type} (d : dict V) (key : string) (default : V) : V :=
  match dict_lookup key d with
  | Some v => v
  | None => default
  end.

Definition dict_keys {V : Type} (d : dict V) : list string := map fst d.

(** The exact value of a float against an [int], as Python compares them. *)
Definition float_eq_int (f : spec_float) (n : Z) : bool :=
  match f with
  | S754_zero _ => Z.eqb n 0
  | S754_finite s m e =>
      let v := if s then Z.neg m else Z.pos m in
      if Z.leb 0 e then Z.eqb (v * 2 ^ e) n else Z.eqb v (n * 2 ^ (- e))
  | S754_infinity _ => false
  | S754_nan => false
  end.

(** [v == n] for an [int] literal [n]. *)
Definition py_eq_int (v : json) (n : Z) : bool :=
  match v with
  | JInt m => Z.eqb m n
  | JFloat f => float_eq_int f n
  | JBool b => Z.eqb (if b then 1 else 0) n
  | JNull | JStr _ | JArr _ | JObj _ => false
  end.

(** [v == s] for a [str] literal [s]. *)
Definition py_eq_str (v : json) (s : string) : bool :=
  match v with
  | JStr t => String.eqb t s
  | _ => false
  end.

(** ** The workflow state *)

(** [class EmailState(TypedDict)]; [run] creates it with all eight keys.
    [accuracy_score] is a dict, as declared: [check_accuracy] raises on
    any other value that [json.loads] may return, so none is ever handed
    to a later node. *)
Record EmailState : Type := mkEmailState {
  user_input : string;
  parsed_data : dict string;
  generated_email : string;
  accuracy_score : dict json;
  send_status : string;
  result_summary : string;
  processing_time : string;
  current_date : string
}.

(** ** Exceptions, the outside world and the collaborators *)

Inductive Exn : Type :=
| KeyError (key : string)
| TypeError
| OSError (msg : string)
| APIError (msg : string).

Inductive result (A : Type) : Type :=
| Ok (a : A)
| Raise (e : Exn).
Arguments Ok {A} a.
Arguments Raise {A} e.

Inductive log_level : Type := INFO | ERROR.

Record datetime : Type := mkDatetime {
  year : nat; month : nat; day : nat; hour : nat; minute : nat; second : nat
}.

(** Everything a run leaves behind outside the state dictionary. *)
Record World : Type := mkWorld {
  llm_prompts : list string;            (* prompts submitted to the model, oldest first *)
  clock_reads : nat;                    (* calls of datetime.now() so far *)
  log_records : list (log_level * string);
  stdout : list string;
  file_writes : list (string * string)  (* (path, content), oldest first *)
}.

Record Env : Type := mkEnv {
  (* self.llm.invoke: the content of the answer to the k-th call, or the
     exception the client raises *)
  llm : nat -> string -> result string;
  (* json.loads; None stands for json.JSONDecodeError *)
  json_loads : string -> option json;
  (* datetime.now() at the k-th reading of the clock *)
  now : nat -> datetime;
  strftime : datetime -> string -> string;
  (* the text an f-string puts for a value *)
  py_str : json -> string;
  (* the two templates of prompt.py, which is not among the sources, as
     the functions that format them:
     PromptTemplate.from_template(EMAIL_GENERATION_PROMPT).format(
       user_input=, current_date=, **parsed_data) *)
  EMAIL_GENERATION_PROMPT : string -> string -> dict string -> string;
  (* PromptTemplate.from_template(ACCURACY_CHECK_PROMPT).format(
       original_input=, generated_email=) *)
  ACCURACY_CHECK_PROMPT : string -> string -> string;
  (* the error, if any, of the k-th open(path, "w") *)
  open_error : nat -> string -> option Exn
}.

(** ** State-and-exception monad: effects persist when an exception is raised *)

Definition M (A : Type) : Type := World -> result A * World.

Definition ret {A : Type} (a : A) : M A := fun w => (Ok a, w).

Definition raise {A : Type} (e : Exn) : M A := fun w => (Raise e, w).

Definition bind {A B : Type} (m : M A) (k : A -> M B) : M B :=
  fun w =>
    match m w with
    | (Ok a, w') => k a w'
    | (Raise e, w') => (Raise e, w')
    end.

Notation "x <- m ;; k" := (bind m (fun x => k))
  (at level 61, m at next level, right associativity).
Notation "m ;; k" := (bind m (fun _ => k))
  (at level 61, right associativity).

Definition lift {A : Type} (r : result A) : M A := fun w => (r, w).

(** [d[key]] on a dict *)
Definition subscript {V : Type} (d : dict V) (key : string) : result V :=
  match dict_lookup key d with
  | Some v => Ok v
  | None => Raise (KeyError key)
  end.

(** [v[key]] on whatever [json.loads] returned, for a [str] key *)
Definition json_subscript (v : json) (key : string) : result json :=
  match v with
  | JObj d => subscript d key
  | _ => Raise TypeError
  end.

Definition dq : string := String (ascii_of_nat 34) EmptyString.

(** Assignments [state[key] = value], one for each key a node writes *)
Definition set_parsed (state : EmailState) (parsed : dict string)
    (date processed : string) : EmailState :=
  mkEmailState (user_input state) parsed (generated_email state)
    (accuracy_score state) (send_status state) (result_summary state)
    processed date.

Definition set_generated_email (state : EmailState) (v : string) : EmailState :=
  mkEmailState (user_input state) (parsed_data state) v
    (accuracy_score state) (send_status state) (result_summary state)
    (processing_time state) (current_date state).

Definition set_accuracy_score (state : EmailState) (v : dict json) : EmailState :=
  mkEmailState (user_input state) (parsed_data state) (generated_email state)
    v (send_status state) (result_summary state)
    (processing_time state) (current_date state).

Definition set_send_status (state : EmailState) (v : string) : EmailState :=
  mkEmailState (user_input state) (parsed_data state) (generated_email state)
    (accuracy_score state) v (result_summary state)
    (processing_time state) (current_date state).

Definition set_result_summary (state : EmailState) (v : string) : EmailState :=
  mkEmailState (user_input state) (parsed_data state) (generated_email state)
    (accuracy_score state) (send_status state) v
    (processing_time state) (current_date state).

(** The nodes and the edges of [_build_graph] *)
Inductive node : Type :=
| input_processing
| email_generation
| accuracy_check
| email_simulation
| result_output
| web_update
| revision.

Inductive target : Type :=
| Node (n : node)
| END.

(** How far [graph.invoke] got *)
Inductive outcome : Type :=
| Finished (state : EmailState)
| Aborted (e : Exn)
| Running (n : node) (state : EmailState).

(** ** The two report templates *)

(** The f-string of [output_result]: one parameter for each placeholder,
    in the order of the text. *)
Definition result_summary_text
  (status score processed raw_input parsed parsing_accuracy format_compliance required_info format_completeness feedback : string) : string :=
  "
        📧 이메일 생성 완료 보고서
        
        ═══════════════════════════════════════
        📝 처리 결과
        - 상태: "
  ++ status
  ++ "
        - 정확도: "
  ++ score
  ++ "/100
        - 처리 시간: "
  ++ processed
  ++ "
        
        📋 생성된 이메일 정보
        - 입력: "
  ++ raw_input
  ++ "
        - 파싱된 데이터: "
  ++ parsed
  ++ "
        
        📊 품질 평가
        - 파싱 정확성: "
  ++ parsing_accuracy
  ++ "/40
        - 양식 준수: "
  ++ format_compliance
  ++ "/30
        - 필수 정보: "
  ++ required_info
  ++ "/20
        - 형식 완성도: "
  ++ format_completeness
  ++ "/10
        
        💡 피드백: "
  ++ feedback
  ++ "
        ═══════════════════════════════════════
        ".

(** The f-string of [update_web_page], likewise; [updated] is the render
    timestamp. *)
Definition html_content_text
  (processed status score raw_input vehicle_model software_version control_board email parsing_accuracy format_compliance required_info format_completeness feedback updated : string) : string :=
  "
        <!DOCTYPE html>
        <html lang=" ++ dq ++ "ko" ++ dq ++ ">
        <head>
            <meta charset=" ++ dq ++ "UTF-8" ++ dq ++ ">
            <meta name=" ++ dq ++ "viewport" ++ dq ++ " content=" ++ dq ++ "width=device-width, initial-scale=1.0" ++ dq ++ ">
            <title>이메일 생성 결과</title>
            <style>
                body { font-family: Arial, sans-serif; margin: 20px; background-color: #f5f5f5; }
                .container { max-width: 800px; margin: 0 auto; background: white; padding: 20px; border-radius: 8px; box-shadow: 0 2px 10px rgba(0,0,0,0.1); }
                .header { background: #007bff; color: white; padding: 15px; border-radius: 5px; margin-bottom: 20px; }
                .section { margin-bottom: 20px; padding: 15px; border: 1px solid #ddd; border-radius: 5px; }
                .score { font-size: 24px; font-weight: bold; color: #28a745; }
                .email-content { background: #f8f9fa; padding: 15px; border-radius: 5px; white-space: pre-wrap; }
                .timestamp { color: #666; font-size: 12px; }
            </style>
        </head>
        <body>
            <div class=" ++ dq ++ "container" ++ dq ++ ">
                <div class=" ++ dq ++ "header" ++ dq ++ ">
                    <h1>🚗 자동차 테스트 이메일 생성 시스템</h1>
                    <p>생성 시간: "
  ++ processed
  ++ "</p>
                </div>
                
                <div class=" ++ dq ++ "section" ++ dq ++ ">
                    <h2>📝 처리 결과</h2>
                    <p><strong>상태:</strong> "
  ++ status
  ++ "</p>
                    <p><strong>정확도:</strong> <span class=" ++ dq ++ "score" ++ dq ++ ">"
  ++ score
  ++ "/100</span></p>
                </div>
                
                <div class=" ++ dq ++ "section" ++ dq ++ ">
                    <h2>📋 입력 정보</h2>
                    <p><strong>사용자 입력:</strong> "
  ++ raw_input
  ++ "</p>
                    <p><strong>차종:</strong> "
  ++ vehicle_model
  ++ "</p>
                    <p><strong>소프트웨어 버전:</strong> "
  ++ software_version
  ++ "</p>
                    <p><strong>제어보드:</strong> "
  ++ control_board
  ++ "</p>
                </div>
                
                <div class=" ++ dq ++ "section" ++ dq ++ ">
                    <h2>📧 생성된 이메일</h2>
                    <div class=" ++ dq ++ "email-content" ++ dq ++ ">"
  ++ email
  ++ "</div>
                </div>
                
                <div class=" ++ dq ++ "section" ++ dq ++ ">
                    <h2>📊 품질 평가</h2>
                    <p><strong>파싱 정확성:</strong> "
  ++ parsing_accuracy
  ++ "/40</p>
                    <p><strong>양식 준수:</strong> "
  ++ format_compliance
  ++ "/30</p>
                    <p><strong>필수 정보:</strong> "
  ++ required_info
  ++ "/20</p>
                    <p><strong>형식 완성도:</strong> "
  ++ format_completeness
  ++ "/10</p>
                    <p><strong>피드백:</strong> "
  ++ feedback
  ++ "</p>
                </div>
                
                <div class=" ++ dq ++ "timestamp" ++ dq ++ ">
                    마지막 업데이트: "
  ++ updated
  ++ "
                </div>
            </div>
        </body>
        </html>
        ".

Section Workflow.

Context (E : Env).

Definition logger_info (msg : string) : M unit := fun w =>
  (Ok tt, mkWorld (llm_prompts w) (clock_reads w)
            (log_records w ++ [(INFO, msg)]) (stdout w) (file_writes w)).

Definition logger_error (msg : string) : M unit := fun w =>
  (Ok tt, mkWorld (llm_prompts w) (clock_reads w)
            (log_records w ++ [(ERROR, msg)]) (stdout w) (file_writes w)).

Definition datetime_now : M datetime := fun w =>
  (Ok (now E (clock_reads w)),
   mkWorld (llm_prompts w) (S (clock_reads w)) (log_records w) (stdout w)
     (file_writes w)).

Definition llm_invoke (prompt : string) : M string := fun w =>
  (llm E (length (llm_prompts w)) prompt,
   mkWorld (llm_prompts w ++ [prompt]) (clock_reads w) (log_records w)
     (stdout w) (file_writes w)).

Definition print (s : string) : M unit := fun w =>
  (Ok tt, mkWorld (llm_prompts w) (clock_reads w) (log_records w)
            (stdout w ++ [s]) (file_writes w)).

(** [with open(path, "w", encoding="utf-8") as f: f.write(content)] *)
Definition write_file (path content : string) : M unit := fun w =>
  match open_error E (length (file_writes w)) path with
  | Some e => (Raise e, w)
  | None =>
      (Ok tt, mkWorld (llm_prompts w) (clock_reads w) (log_records w)
                (stdout w) (file_writes w ++ [(path, content)]))
  end.

(** [state["accuracy_score"].get(key, default)] rendered by an f-string *)
Definition show_get (d : dict json) (key default : string) : string :=
  py_str E (dict_get d key (JStr default)).

Definition show_dict (d : dict string) : string :=
  py_str E (JObj (map (fun kv => (fst kv, JStr (snd kv))) d)).

(** ** The router *)

Definition should_send_email (state : EmailState) : M string :=
  let score := dict_get (accuracy_score state) "overall_score" (JInt 0) in
  let recommendation :=
    dict_get (accuracy_score state) "recommendation" (JStr "REVISE") in
  if py_eq_int score 100 && py_eq_str recommendation "APPROVE" then
    logger_info "정확도 100점 - 이메일 전송 승인";;
    ret "send"
  else
    logger_info ("정확도 " ++ py_str E score ++ "점 - 재작성 필요");;
    ret "revise".

(** ** The nodes *)

(** The two formatted prompts *)
Definition generation_prompt (state : EmailState) : string :=
  EMAIL_GENERATION_PROMPT E (user_input state) (current_date state)
    (parsed_data state).

Definition accuracy_prompt (state : EmailState) : string :=
  ACCURACY_CHECK_PROMPT E (user_input state) (generated_email state).

Definition process_input (state : EmailState) : M EmailState :=
  logger_info "입력 처리 시작";;
  today <- datetime_now;;
  let current_date := strftime E today "%Y-%m-%d" in
  let parsed_data :=
    [ ("vehicle_model", "추출된차종");
      ("software_version", "추출된버전");
      ("control_board", "추출된제어보드");
      ("manager_name", "김테스트");
      ("distributor_name", "박배포");
      ("test_result", "All Pass") ] in
  started <- datetime_now;;
  let state :=
    set_parsed state parsed_data current_date
      (strftime E started "%Y-%m-%d %H:%M:%S") in
  logger_info ("파싱 완료: " ++ show_dict parsed_data);;
  ret state.

Definition generate_email (state : EmailState) : M EmailState :=
  logger_info "이메일 생성 시작";;
  let formatted_prompt := generation_prompt state in
  generated_email <- llm_invoke formatted_prompt;;
  let state := set_generated_email state generated_email in
  logger_info "이메일 생성 완료";;
  ret state.

Definition check_accuracy (state : EmailState) : M EmailState :=
  logger_info "정확도 체크 시작";;
  let formatted_prompt := accuracy_prompt state in
  response <- llm_invoke formatted_prompt;;
  match json_loads E response with
  | Some accuracy_data =>
      (* the log line subscripts accuracy_data inside the try, whose
         handler is for json.JSONDecodeError alone *)
      match accuracy_data with
      | JObj d =>
          let state := set_accuracy_score state d in
          score <- lift (subscript d "overall_score");;
          logger_info ("정확도 점수: " ++ py_str E score);;
          ret state
      | _ =>
          (* nothing but a dict takes a str subscript: TypeError *)
          lift (json_subscript accuracy_data "overall_score");;
          ret state
      end
  | None =>
      logger_error "정확도 체크 응답 파싱 실패";;
      ret (set_accuracy_score state
             [ ("overall_score", JInt 0);
               ("recommendation", JStr "REVISE");
               ("feedback", JStr "응답 파싱 실패") ])
  end.

Definition revise_email (state : EmailState) : M EmailState :=
  logger_info "이메일 재작성";;
  let feedback := dict_get (accuracy_score state) "feedback" (JStr "") in
  logger_info ("재작성 피드백: " ++ py_str E feedback);;
  ret state.

Definition simulate_email_send (state : EmailState) : M EmailState :=
  logger_info "이메일 전송 시뮬레이션";;
  let state := set_send_status state "전송 완료 (시뮬레이션)" in
  logger_info "이메일 전송 시뮬레이션 완료";;
  ret state.

Definition output_result (state : EmailState) : M EmailState :=
  logger_info "결과 출력";;
  score <- lift (subscript (accuracy_score state) "overall_score");;
  let result_summary :=
    result_summary_text
      (send_status state)
      (py_str E score)
      (processing_time state)
      (user_input state)
      (show_dict (parsed_data state))
      (show_get (accuracy_score state) "parsing_accuracy" "N/A")
      (show_get (accuracy_score state) "format_compliance" "N/A")
      (show_get (accuracy_score state) "required_info" "N/A")
      (show_get (accuracy_score state) "format_completeness" "N/A")
      (show_get (accuracy_score state) "feedback" "없음") in
  let state := set_result_summary state result_summary in
  print result_summary;;
  ret state.

Definition update_web_page (state : EmailState) : M EmailState :=
  logger_info "웹페이지 업데이트";;
  score <- lift (subscript (accuracy_score state) "overall_score");;
  vehicle_model <- lift (subscript (parsed_data state) "vehicle_model");;
  software_version <- lift (subscript (parsed_data state) "software_version");;
  control_board <- lift (subscript (parsed_data state) "control_board");;
  rendered <- datetime_now;;
  let html_content :=
    html_content_text
      (processing_time state)
      (send_status state)
      (py_str E score)
      (user_input state)
      vehicle_model
      software_version
      control_board
      (generated_email state)
      (show_get (accuracy_score state) "parsing_accuracy" "N/A")
      (show_get (accuracy_score state) "format_compliance" "N/A")
      (show_get (accuracy_score state) "required_info" "N/A")
      (show_get (accuracy_score state) "format_completeness" "N/A")
      (show_get (accuracy_score state) "feedback" "없음")
      (strftime E rendered "%Y-%m-%d %H:%M:%S") in
  write_file "email_result.html" html_content;;
  logger_info "웹페이지 업데이트 완료: email_result.html";;
  ret state.

(** The page that [update_web_page] renders for a state at a given
    reading of the clock, when the four subscripts succeed. *)
Definition rendered_page (state : EmailState) (score : json)
    (vehicle_model software_version control_board : string)
    (rendered : datetime) : string :=
  html_content_text
    (processing_time state) (send_status state) (py_str E score)
    (user_input state) vehicle_model software_version control_board
    (generated_email state)
    (show_get (accuracy_score state) "parsing_accuracy" "N/A")
    (show_get (accuracy_score state) "format_compliance" "N/A")
    (show_get (accuracy_score state) "required_info" "N/A")
    (show_get (accuracy_score state) "format_completeness" "N/A")
    (show_get (accuracy_score state) "feedback" "없음")
    (strftime E rendered "%Y-%m-%d %H:%M:%S").

(** ** The graph *)

(** [workflow.add_node] *)
Definition node_function (n : node) : EmailState -> M EmailState :=
  match n with
  | input_processing => process_input
  | email_generation => generate_email
  | accuracy_check => check_accuracy
  | email_simulation => simulate_email_send
  | result_output => output_result
  | web_update => update_web_page
  | revision => revise_email
  end.

(** The path map of [add_conditional_edges] *)
Definition path_map : dict node :=
  [ ("send", email_simulation); ("revise", revision) ].

(** [add_edge] and [add_conditional_edges]: where control goes after a node *)
Definition next_target (n : node) (state : EmailState) : M target :=
  match n with
  | input_processing => ret (Node email_generation)
  | email_generation => ret (Node accuracy_check)
  | accuracy_check =>
      branch <- should_send_email state;;
      n' <- lift (subscript path_map branch);;
      ret (Node n')
  | revision => ret (Node email_generation)
  | email_simulation => ret (Node result_output)
  | result_output => ret (Node web_update)
  | web_update => ret END
  end.

(** [graph.invoke]: run the node, follow its edge, until [END] or an
    exception.  The source puts no bound on this; [fuel] is the number of
    nodes an observer lets the run execute, so that a run inside the revise
    loop can be looked at after any number of them.  [visited] lists the
    nodes executed so far. *)
Fixpoint graph_invoke (fuel : nat) (n : node) (state : EmailState)
    (visited : list node) (w : World) : outcome * list node * World :=
  match fuel with
  | O => (Running n state, visited, w)
  | S fuel' =>
      match node_function n state w with
      | (Raise e, w1) => (Aborted e, (visited ++ [n])%list, w1)
      | (Ok state1, w1) =>
          match next_target n state1 w1 with
          | (Raise e, w2) => (Aborted e, (visited ++ [n])%list, w2)
          | (Ok END, w2) => (Finished state1, (visited ++ [n])%list, w2)
          | (Ok (Node n'), w2) =>
              graph_invoke fuel' n' state1 (visited ++ [n])%list w2
          end
      end
  end.

Definition initial_state (text : string) : EmailState :=
  mkEmailState text [] "" [] "" "" "" "".

(** [EmailGenerationSystem.run] *)
Definition run (fuel : nat) (text : string) (w : World)
    : outcome * list node * World :=
  graph_invoke fuel input_processing (initial_state text) [] w.

End Workflow.

(** ** Notions used to state the properties *)

(** The evaluation completed with the defaults that the router reads for
    absent keys; keys already present shadow the appended ones. *)
Definition with_defaults (e : dict json) : dict json :=
  (e ++ [ ("overall_score", JInt 0); ("recommendation", JStr "REVISE") ])%list.

(** What a file holds: the content of the last write to its path. *)
Definition file_content (path : string) (w : World) : option string :=
  fold_left
    (fun held pc => if String.eqb (fst pc) path then Some (snd pc) else held)
    (file_writes w) None.

(** The guard of [should_send_email] *)
Definition perfect_evaluation (e : dict json) : bool :=
  py_eq_int (dict_get e "overall_score" (JInt 0)) 100
  && py_eq_str (dict_get e "recommendation" (JStr "REVISE")) "APPROVE".

(** [k] turns of the revise loop *)
Fixpoint cycles (k : nat) : list node :=
  match k with
  | O => []
  | S k' => email_generation :: accuracy_check :: revision :: cycles k'
  end.

Definition state_of (o : outcome) : option EmailState :=
  match o with
  | Finished state => Some state
  | Running _ state => Some state
  | Aborted _ => None
  end.

(** ** The entry point *)

(** [s * n] on a string *)
Fixpoint string_times (s : string) (n : nat) : string :=
  match n with
  | O => ""
  | S n' => s ++ string_times s n'
  end.

Definition test_input : string := "소나타, v2.1.3, ECU-2024".

(** How [main] leaves: it returned, an exception went through it, or it
    is still inside [run] when the fuel is spent. *)
Inductive exit : Type :=
| Returned
| Raised (e : Exn)
| Pending.

(** [main].  [system] is what [EmailGenerationSystem(api_key)] gives for
    the key of the process environment: the system, with the
    collaborators it talks to, or the exception of the constructor. *)
Definition main (system : result Env) (fuel : nat) (w : World) : exit * World :=
  match system with
  | Raise e => (Raised e, w)
  | Ok E =>
      let banner :=
        print "🚀 이메일 생성 시스템 시작";;
        print ("입력: " ++ test_input);;
        print (string_times "=" 50) in
      match run E fuel test_input (snd (banner w)) with
      | (Finished result, _, w') =>
          (Returned,
           snd ((print "
✅ 처리 완료!";;
                 print "결과 파일: email_result.html") w'))
      | (Aborted e, _, w') => (Raised e, w')
      | (Running _ _, _, w') => (Pending, w')
      end
  end.

(** ** Notions used to state the properties of whole runs *)

Definition sent_marker : string := "전송 완료 (시뮬레이션)".

(** The record that [process_input] assigns *)
Definition fixed_parsed_data : dict string :=
  [ ("vehicle_model", "추출된차종");
    ("software_version", "추출된버전");
    ("control_board", "추출된제어보드");
    ("manager_name", "김테스트");
    ("distributor_name", "박배포");
    ("test_result", "All Pass") ].

(** The state in which [process_input] leaves a run started on [text]
    in the world [w0] *)
Definition processed_state (E : Env) (text : string) (w0 : World) : EmailState :=
  set_parsed (initial_state text) fixed_parsed_data
    (strftime E (now E (clock_reads w0)) "%Y-%m-%d")
    (strftime E (now E (S (clock_reads w0))) "%Y-%m-%d %H:%M:%S").

(** The evaluation that [check_accuracy] substitutes for an answer that
    does not parse *)
Definition fallback_evaluation : dict json :=
  [ ("overall_score", JInt 0);
    ("recommendation", JStr "REVISE");
    ("feedback", JStr "응답 파싱 실패") ].

(** How a call of [graph_invoke] that started from a node came to its
    result: the fuel ran out there, or that node was the last one. *)
Inductive ends (E : Env) (n : node) (state : EmailState) (visited : list node)
    (w : World) : outcome * list node * World -> Prop :=
| ends_running :
    ends E n state visited w (Running n state, visited, w)
| ends_finished (state1 : EmailState) (w1 w2 : World) :
    node_function E n state w = (Ok state1, w1) ->
    next_target E n state1 w1 = (Ok END, w2) ->
    ends E n state visited w (Finished state1, (visited ++ [n])%list, w2)
| ends_node_raised (e : Exn) (w1 : World) :
    node_function E n state w = (Raise e, w1) ->
    ends E n state visited w (Aborted e, (visited ++ [n])%list, w1)
| ends_edge_raised (e : Exn) (state1 : EmailState) (w1 w2 : World) :
    node_function E n state w = (Ok state1, w1) ->
    next_target E n state1 w1 = (Raise e, w2) ->
    ends E n state visited w (Aborted e, (visited ++ [n])%list, w2).

(** The nodes of the current turn that lie behind a run standing at [n] *)
Definition trail (n : node) : list node :=
  match n with
  | input_processing => []
  | email_generation => []
  | accuracy_check => [email_generation]
  | revision => [email_generation; accuracy_check]
  | email_simulation => [email_generation; accuracy_check]
  | result_output => [email_generation; accuracy_check; email_simulation]
  | web_update =>
      [email_generation; accuracy_check; email_simulation; result_output]
  end.

(** and the model calls of the current turn that lie behind it *)
Definition calls_behind (n : node) : nat :=
  match n with
  | input_processing => 0
  | email_generation => 0
  | accuracy_check => 1
  | _ => 2
  end.

(** What is known of the state when a run stands at [n] *)
Definition approval (n : node) (state : EmailState) : Prop :=
  match n with
  | email_simulation =>
      perfect_evaluation (accuracy_score state) = true
      /\ send_status state = ""
  | result_output | web_update =>
      perfect_evaluation (accuracy_score state) = true
      /\ send_status state = sent_marker
  | _ => send_status state = ""
  end.

(** A run started on [text] in [w0] and standing at [n] after [k] turns
    of the revise loop *)
Definition on_track (text : string) (w0 : World)
    (n : node) (state : EmailState) (visited : list node) (w : World) : Prop :=
  match n with
  | input_processing => state = initial_state text /\ visited = [] /\ w = w0
  | _ =>
      exists k,
        visited = (input_processing :: cycles k ++ trail n)%list
        /\ length (llm_prompts w) =
             length (llm_prompts w0) + 2 * k + calls_behind n
        /\ file_writes w = file_writes w0
        /\ stdout w =
             (stdout w0 ++
                match n with web_update => [result_summary state] | _ => [] end)%list
        /\ parsed_data state = fixed_parsed_data
        /\ user_input state = text
        /\ approval n state
  end.

(** The prompts of a run: the one generation prompt, each time followed
    by the evaluation prompt for the draft that came back *)
Definition exchanges (E : Env) (text : string) (w0 : World)
    (drafts : list string) : list string :=
  flat_map
    (fun draft =>
       [ generation_prompt E (processed_state E text w0);
         ACCURACY_CHECK_PROMPT E text draft ])
    drafts.

Definition prompts_on_track (E : Env) (text : string) (w0 : World)
    (n : node) (state : EmailState) (visited : list node) (w : World) : Prop :=
  match n with
  | input_processing => state = initial_state text /\ w = w0
  | _ =>
      user_input state = text
      /\ current_date state = current_date (processed_state E text w0)
      /\ parsed_data state = fixed_parsed_data
      /\ exists drafts,
           llm_prompts w =
           (llm_prompts w0 ++ exchanges E text w0 drafts ++
              match n with
              | accuracy_check => [generation_prompt E (processed_state E text w0)]
              | _ => []
              end)%list
  end.

(** The first of the four hard subscripts of [update_web_page] that
    fails, in the order in which the f-string evaluates them *)
Definition first_missing_key (state : EmailState) : option string :=
  match dict_lookup "overall_score" (accuracy_score state) with
  | None => Some "overall_score"
  | Some _ =>
      match dict_lookup "vehicle_model" (parsed_data state) with
      | None => Some "vehicle_model"
      | Some _ =>
          match dict_lookup "software_version" (parsed_data state) with
          | None => Some "software_version"
          | Some _ =>
              match dict_lookup "control_board" (parsed_data state) with
              | None => Some "control_board"
              | Some _ => None
              end
          end
      end
  end.

(** What [check_accuracy] makes of the answer of the model: the
    evaluation it stores, or the exception that leaves the stage *)
Definition read_evaluation (E : Env) (answer : result string)
    : result (dict json) :=
  match answer with
  | Raise e => Raise e
  | Ok response =>
      match json_loads E response with
      | None => Ok fallback_evaluation
      | Some (JObj d) =>
          match dict_lookup "overall_score" d with
          | Some _ => Ok d
          | None => Raise (KeyError "overall_score")
          end
      | Some _ => Raise TypeError
      end
  end.

(** The model calls of a node *)
Definition model_calls (n : node) : nat :=
  match n with
  | email_generation | accuracy_check => 1
  | _ => 0
  end.

(** The fields the generation prompt is made of are those input
    processing left *)
Definition prompt_fields (E : Env) (text : string) (w0 : World)
    (state : EmailState) : Prop :=
  user_input state = text
  /\ current_date state = current_date (processed_state E text w0)
  /\ parsed_data state = fixed_parsed_data.

(** A model whose answer depends on the prompt alone *)
Definition deterministic (E : Env) : Prop :=
  forall k k' prompt, llm E k prompt = llm E k' prompt.

(** ** Stand-ins for the collaborators

    Small concrete collaborators on which the workflow can be run: a model
    that follows a script, a loader that knows three documents and rejects
    everything else, a clock that advances by a second at each reading. *)

Module StandIn.

Definition show_nat (n : nat) : string :=
  NilEmpty.string_of_uint (Nat.to_uint n).

Definition two_digits (n : nat) : string :=
  if Nat.ltb n 10 then "0" ++ show_nat n else show_nat n.

Definition clock (k : nat) : datetime := mkDatetime 2024 5 17 9 30 k.

Definition render_time (t : datetime) (format : string) : string :=
  let date :=
    show_nat (year t) ++ "-" ++ two_digits (month t) ++ "-"
    ++ two_digits (day t) in
  if String.eqb format "%Y-%m-%d" then date
  else date ++ " " ++ two_digits (hour t) ++ ":" ++ two_digits (minute t)
       ++ ":" ++ two_digits (second t).

Definition show (v : json) : string :=
  match v with
  | JStr s => s
  | JInt n => NilEmpty.string_of_int (Z.to_int n)
  | JBool true => "True"
  | JBool false => "False"
  | JNull => "None"
  | JFloat _ | JArr _ | JObj _ => "..."
  end.

Definition quoted (s : string) : string := dq ++ s ++ dq.

Definition draft : string := "Dear Mr. Park, ...".

Definition approve_document : string :=
  "{" ++ quoted "overall_score" ++ ": 100, "
  ++ quoted "recommendation" ++ ": " ++ quoted "APPROVE" ++ "}".

Definition revise_document : string :=
  "{" ++ quoted "overall_score" ++ ": 80, "
  ++ quoted "recommendation" ++ ": " ++ quoted "REVISE" ++ "}".

Definition loads (s : string) : option json :=
  if String.eqb s approve_document then
    Some (JObj [ ("overall_score", JInt 100); ("recommendation", JStr "APPROVE") ])
  else if String.eqb s revise_document then
    Some (JObj [ ("overall_score", JInt 80); ("recommendation", JStr "REVISE") ])
  else if String.eqb s "{}" then Some (JObj [])
  else None.

Definition email_prompt (text date : string) (parsed : dict string) : string :=
  "Write the notification email of " ++ date ++ " for: " ++ text.

Definition check_prompt (text email : string) : string :=
  "Grade this email: " ++ email ++ " against: " ++ text.

Definition env (model : nat -> string -> result string) : Env :=
  mkEnv model loads clock render_time show email_prompt check_prompt
    (fun _ _ => None).

(** A model that gives the answers of a list, one per call. *)
Definition scripted (answers : list (result string))
    : nat -> string -> result string :=
  fun k _ => nth k answers (Raise (APIError "no answer left")).

(** A model that drafts on even calls and grades 80, REVISE on odd ones. *)
Definition never_satisfied : nat -> string -> result string :=
  fun k _ => if Nat.even k then Ok draft else Ok revise_document.

Definition fresh : World := mkWorld [] 0 [] [] [].

Definition sample_input : string := "소나타, v2.1.3, ECU-2024".

(** The state as input processing leaves it on [fresh] *)
Definition processed : EmailState :=
  mkEmailState sample_input
    [ ("vehicle_model", "추출된차종");
      ("software_version", "추출된버전");
      ("control_board", "추출된제어보드");
      ("manager_name", "김테스트");
      ("distributor_name", "박배포");
      ("test_result", "All Pass") ]
    "" [] "" "" "2024-05-17 09:30:01" "2024-05-17".

(** A state as it reaches the publish stage *)
Definition sent : EmailState :=
  mkEmailState sample_input (parsed_data processed) draft
    [ ("overall_score", JInt 100); ("recommendation", JStr "APPROVE") ]
    "전송 완료 (시뮬레이션)" "" "2024-05-17 09:30:01" "2024-05-17".

Definition connection_refused : Exn := APIError "connection refused".

(** The model approves the first draft. *)
Definition approving : Env := env (scripted [ Ok draft; Ok approve_document ]).

(** The model answers the evaluation prompt with prose. *)
Definition garbling : Env := env (scripted [ Ok "Sure! Here is my evaluation." ]).

(** The model cannot be reached. *)
Definition generation_down : Env := env (scripted [ Raise connection_refused ]).

(** The model drafts, then cannot be reached for the evaluation. *)
Definition evaluation_down : Env :=
  env (scripted [ Ok draft; Raise connection_refused ]).

(** The model grades with a document that has no overall_score. *)
Definition forgetful : Env := env (scripted [ Ok draft; Ok "{}" ]).

(** The model never grades above 80. *)
Definition demanding : Env := env never_satisfied.

(** The model answers by the prompt alone: a draft to the generation
    prompt, the 80, REVISE document to any other. *)
Definition stubborn : Env :=
  env (fun _ prompt =>
         if String.eqb prompt
              (email_prompt sample_input "2024-05-17" (parsed_data processed))
         then Ok draft else Ok revise_document).

(** The page cannot be opened. *)
Definition read_only : Env :=
  mkEnv (scripted [ Ok draft; Ok approve_document ]) loads clock render_time
    show email_prompt check_prompt
    (fun _ _ => Some (OSError "Permission denied")).

End StandIn.

(** For a goal [exists w1, frame /\ frame /\ frame /\ result]: the result
    says which world it is. *)
Ltac settle_world :=
  eexists; (split; [ | split; [ | split; [ | reflexivity ] ] ]); reflexivity.

(** The same when the result stands anywhere among the conjuncts. *)
Ltac pin_world :=
  eexists; repeat (match goal with |- _ /\ _ => split end);
  try (match goal with |- _ = (_, _) => reflexivity end);
  try reflexivity.

Ltac run_node :=
  unfold bind, lift, ret, raise, logger_info, logger_error, datetime_now,
    llm_invoke, print, write_file;
  cbn [fst snd llm_prompts clock_reads log_records stdout file_writes].


Arguments result_summary_text : simpl never.
Arguments html_content_text : simpl never.


(** * Properties *)

(** ** Python equality against the two literals of the router *)

Lemma py_eq_str_true (v : json) (s : string) :
  py_eq_str v s = true <-> v = JStr s.
Proof.
  destruct v; simpl; split; intro H; try discriminate.
  - apply String.eqb_eq in H. now subst.
  - injection H as ->. apply String.eqb_refl.
Qed.

Lemma py_eq_int_JInt (n m : Z) : py_eq_int (JInt n) m = true <-> n = m.
Proof. simpl. apply Z.eqb_eq. Qed.

(** Nothing but the number one hundred compares equal to [100]. *)
Lemma py_eq_int_100 (v : json) :
  py_eq_int v 100 = true ->
  v = JInt 100 \/ exists f, v = JFloat f /\ float_eq_int f 100 = true.
Proof.
  destruct v as [ | b | n | f | s | items | fields ]; simpl; intro H;
    try discriminate.
  - destruct b; discriminate.
  - left. apply Z.eqb_eq in H. now subst.
  - right. now exists f.
Qed.

(** ** The router *)

Section Router.

Context (E : Env).

(** The branch is decided by the guard alone. *)
Lemma should_send_email_branch (state : EmailState) (w : World) :
  fst (should_send_email E state w) =
  Ok (if py_eq_int (dict_get (accuracy_score state) "overall_score" (JInt 0)) 100
         && py_eq_str
              (dict_get (accuracy_score state) "recommendation" (JStr "REVISE"))
              "APPROVE"
      then "send" else "revise").
Proof.
  unfold should_send_email.
  destruct (py_eq_int _ 100 && py_eq_str _ "APPROVE"); reflexivity.
Qed.

(** How the guard reads: Python's [and] of the two comparisons. *)
Lemma guard_true_iff (score recommendation : json) :
  py_eq_int score 100 && py_eq_str recommendation "APPROVE" = true <->
  py_eq_int score 100 = true /\ recommendation = JStr "APPROVE".
Proof.
  rewrite andb_true_iff, py_eq_str_true. reflexivity.
Qed.

(** C1. The router answers "send" exactly when the evaluation's
    overall_score equals 100 and its recommendation equals "APPROVE"
    (an absent key counting as 0, resp. "REVISE", as the code reads it);
    for every other evaluation, among them score 100 with recommendation
    REVISE, it answers "revise".  Equal to 100 is Python's [==]: the
    integer 100 or a float of that value. *)
Theorem should_send_email_iff (state : EmailState) (w : World) :
  let e := accuracy_score state in
  let score := dict_get e "overall_score" (JInt 0) in
  let recommendation := dict_get e "recommendation" (JStr "REVISE") in
  (fst (should_send_email E state w) = Ok "send" <->
   py_eq_int score 100 = true /\ recommendation = JStr "APPROVE")
  /\ (~ (py_eq_int score 100 = true /\ recommendation = JStr "APPROVE") ->
      fst (should_send_email E state w) = Ok "revise")
  /\ (recommendation = JStr "REVISE" ->
      fst (should_send_email E state w) = Ok "revise")
  /\ (py_eq_int score 100 = true ->
      score = JInt 100
      \/ exists f, score = JFloat f /\ float_eq_int f 100 = true).
Proof.
  intros e score recommendation.
  rewrite should_send_email_branch.
  fold e. fold score. fold recommendation.
  pose proof (guard_true_iff score recommendation) as Hguard.
  destruct (py_eq_int score 100 && py_eq_str recommendation "APPROVE").
  - (* the guard holds *)
    destruct (proj1 Hguard eq_refl) as [ Hscore Hrec ].
    split; [ | split; [ | split ] ].
    + split; [ intros _; now split | reflexivity ].
    + intros Hnot. exfalso. apply Hnot. now split.
    + intros Hrev. rewrite Hrev in Hrec. discriminate.
    + apply py_eq_int_100.
  - (* the guard fails *)
    assert (~ (py_eq_int score 100 = true /\ recommendation = JStr "APPROVE"))
      as Hnot.
    { intros H. apply Hguard in H. discriminate. }
    split; [ | split; [ | split ] ].
    + split; [ intros H; injection H as H; discriminate | intros H; contradiction ].
    + reflexivity.
    + reflexivity.
    + apply py_eq_int_100.
Qed.

(** On an evaluation of the shape the prompt asks for, an integer score
    and a text recommendation, this is [n = 100] and the text APPROVE. *)
Corollary should_send_email_typed
    (state : EmailState) (w : World) (n : Z) (r : string) :
  dict_lookup "overall_score" (accuracy_score state) = Some (JInt n) ->
  dict_lookup "recommendation" (accuracy_score state) = Some (JStr r) ->
  (fst (should_send_email E state w) = Ok "send" <-> n = 100%Z /\ r = "APPROVE").
Proof.
  intros Hn Hr.
  rewrite should_send_email_branch. unfold dict_get. rewrite Hn, Hr.
  cbn [py_eq_int py_eq_str].
  destruct (Z.eqb_spec n 100) as [ -> | Hne ];
    destruct (String.eqb_spec r "APPROVE") as [ -> | Hre ]; cbn [andb];
    split; try (intros [ ? ? ]); try intros H; try easy;
    injection H as H; discriminate.
Qed.

Lemma dict_lookup_app {V : Type} (key : string) (d1 d2 : dict V) :
  dict_lookup key (d1 ++ d2)%list =
  match dict_lookup key d1 with
  | Some v => Some v
  | None => dict_lookup key d2
  end.
Proof.
  induction d1 as [ | [k v] d1 IH ]; simpl; [ reflexivity | ].
  destruct (String.eqb k key); [ reflexivity | exact IH ].
Qed.

Lemma dict_get_with_defaults (e : dict json) :
  dict_get (with_defaults e) "overall_score" (JInt 0) =
    dict_get e "overall_score" (JInt 0)
  /\ dict_get (with_defaults e) "recommendation" (JStr "REVISE") =
       dict_get e "recommendation" (JStr "REVISE").
Proof.
  unfold dict_get, with_defaults. rewrite !dict_lookup_app.
  split.
  - destruct (dict_lookup "overall_score" e); reflexivity.
  - destruct (dict_lookup "recommendation" e); reflexivity.
Qed.

(** C10. On every state the router returns without raising, with one of
    its two answers; it reads an absent overall_score as 0 and an absent
    recommendation as "REVISE" (it behaves as on the evaluation completed
    with these two entries), so the answer is "revise" whenever either key
    is absent, the empty evaluation included. *)
Theorem should_send_email_total (state : EmailState) (w : World) :
  let e := accuracy_score state in
  (exists branch w',
      should_send_email E state w = (Ok branch, w')
      /\ (branch = "send" \/ branch = "revise")
      /\ (dict_lookup "overall_score" e = None
          \/ dict_lookup "recommendation" e = None -> branch = "revise"))
  /\ should_send_email E (set_accuracy_score state (with_defaults e)) w =
     should_send_email E state w.
Proof.
  intros e. split.
  - unfold should_send_email. fold e. unfold dict_get.
    destruct (dict_lookup "overall_score" e) as [ s | ] eqn:Hs;
      destruct (dict_lookup "recommendation" e) as [ r | ] eqn:Hr.
    + destruct (py_eq_int s 100 && py_eq_str r "APPROVE");
        eexists; eexists; (split; [ reflexivity | ]);
        (split; [ auto | intros [ H | H ]; discriminate ]).
    + rewrite andb_false_r.
      eexists; eexists; (split; [ reflexivity | auto ]).
    + eexists; eexists; (split; [ reflexivity | auto ]).
    + eexists; eexists; (split; [ reflexivity | auto ]).
  - unfold should_send_email. cbn [accuracy_score set_accuracy_score].
    destruct (dict_get_with_defaults e) as [ -> -> ]. reflexivity.
Qed.

End Router.

(** ** The nodes, one at a time *)

Section Nodes.

Context (E : Env).

(** C7. Whatever the state it is given, in particular whatever the raw
    input, the input-processing stage returns with parsed_data set to one
    and the same record, whose keys are exactly vehicle_model,
    software_version, control_board, manager_name, distributor_name and
    test_result. *)
Theorem process_input_fixed_record (state : EmailState) (w : World) :
  exists state' w',
    process_input E state w = (Ok state', w')
    /\ parsed_data state' =
         [ ("vehicle_model", "추출된차종");
           ("software_version", "추출된버전");
           ("control_board", "추출된제어보드");
           ("manager_name", "김테스트");
           ("distributor_name", "박배포");
           ("test_result", "All Pass") ]
    /\ dict_keys (parsed_data state') =
         [ "vehicle_model"; "software_version"; "control_board";
           "manager_name"; "distributor_name"; "test_result" ].
Proof.
  unfold process_input. run_node.
  eexists. eexists. split; [ reflexivity | ].
  split; reflexivity.
Qed.

(** What the input-processing stage does to the rest: the raw input is
    kept, the two dates come from two readings of the clock, and neither
    the model nor the file system is touched. *)
Lemma process_input_spec (state : EmailState) (w : World) :
  exists state' w',
    process_input E state w = (Ok state', w')
    /\ user_input state' = user_input state
    /\ accuracy_score state' = accuracy_score state
    /\ dict_lookup "vehicle_model" (parsed_data state') = Some "추출된차종"
    /\ dict_lookup "software_version" (parsed_data state') = Some "추출된버전"
    /\ dict_lookup "control_board" (parsed_data state') = Some "추출된제어보드"
    /\ current_date state' = strftime E (now E (clock_reads w)) "%Y-%m-%d"
    /\ processing_time state' =
         strftime E (now E (S (clock_reads w))) "%Y-%m-%d %H:%M:%S"
    /\ llm_prompts w' = llm_prompts w
    /\ file_writes w' = file_writes w.
Proof.
  unfold process_input. run_node.
  eexists. eexists. split; [ reflexivity | ].
  repeat split.
Qed.

Lemma revise_email_ok (state : EmailState) (w : World) :
  exists w',
    revise_email E state w = (Ok state, w')
    /\ llm_prompts w' = llm_prompts w
    /\ stdout w' = stdout w
    /\ file_writes w' = file_writes w
    /\ clock_reads w' = clock_reads w.
Proof.
  unfold revise_email. run_node.
  eexists. split; [ reflexivity | ]. repeat split.
Qed.

(** C6. The revision stage returns the state it was given, every field
    as it was; all it does is log the feedback, which reaches neither the
    model nor the next generation prompt (that prompt is made of
    user_input, current_date and parsed_data); and the edge out of it
    leads to the generation stage whatever the state. *)
Theorem revise_email_changes_nothing (state : EmailState) (w : World) :
  exists w',
    revise_email E state w = (Ok state, w')
    /\ llm_prompts w' = llm_prompts w
    /\ stdout w' = stdout w
    /\ file_writes w' = file_writes w
    /\ clock_reads w' = clock_reads w
    /\ (forall s v, next_target E revision s v = (Ok (Node email_generation), v))
    /\ llm_prompts (snd (generate_email E state w')) =
         (llm_prompts w ++
            [ EMAIL_GENERATION_PROMPT E (user_input state) (current_date state)
                (parsed_data state) ])%list.
Proof.
  destruct (revise_email_ok state w) as (w' & Hrun & Hllm & Hout & Hfiles & Hclock).
  exists w'. repeat split; trivial.
  unfold generate_email. run_node. rewrite Hllm.
  destruct (llm E _ _); reflexivity.
Qed.

Lemma generate_email_ok (state : EmailState) (w : World) (draft : string) :
  llm E (length (llm_prompts w)) (generation_prompt E state) = Ok draft ->
  exists w',
    generate_email E state w = (Ok (set_generated_email state draft), w')
    /\ llm_prompts w' = (llm_prompts w ++ [generation_prompt E state])%list
    /\ file_writes w' = file_writes w.
Proof.
  intros Hllm. unfold generate_email. run_node.
  fold (generation_prompt E state). rewrite Hllm.
  eexists. split; [ reflexivity | ]. split; reflexivity.
Qed.

(** C8. When the model call of the generation stage raises, the stage
    raises that same error: the call was made once and not again, nothing
    in the stage handles the error, and a run standing at the generation
    stage is aborted by it without entering another node. *)
Theorem generate_email_failure_aborts
    (state : EmailState) (w : World) (e : Exn) :
  llm E (length (llm_prompts w)) (generation_prompt E state) = Raise e ->
  exists w',
    generate_email E state w = (Raise e, w')
    /\ llm_prompts w' = (llm_prompts w ++ [generation_prompt E state])%list
    /\ forall fuel visited,
         graph_invoke E (S fuel) email_generation state visited w =
         (Aborted e, (visited ++ [email_generation])%list, w').
Proof.
  intros Hllm.
  assert (exists w', generate_email E state w = (Raise e, w')
            /\ llm_prompts w' = (llm_prompts w ++ [generation_prompt E state])%list)
    as (w' & Hgen & Hcalls).
  { unfold generate_email. run_node.
    fold (generation_prompt E state). rewrite Hllm.
    eexists. split; reflexivity. }
  exists w'. repeat split; trivial.
  intros fuel visited.
  cbn [graph_invoke node_function]. rewrite Hgen. reflexivity.
Qed.

Lemma check_accuracy_ok
    (state : EmailState) (w : World) (response : string)
    (d : dict json) (score : json) :
  llm E (length (llm_prompts w)) (accuracy_prompt E state) = Ok response ->
  json_loads E response = Some (JObj d) ->
  dict_lookup "overall_score" d = Some score ->
  exists w',
    check_accuracy E state w = (Ok (set_accuracy_score state d), w')
    /\ llm_prompts w' = (llm_prompts w ++ [accuracy_prompt E state])%list
    /\ file_writes w' = file_writes w.
Proof.
  intros Hllm Hjson Hscore. unfold check_accuracy. run_node.
  fold (accuracy_prompt E state). rewrite Hllm, Hjson.
  unfold subscript. rewrite Hscore.
  eexists. split; [ reflexivity | ]. split; reflexivity.
Qed.

(** An error of the model call in the evaluation stage is not handled
    either: the call stands before the [try]. *)
Lemma check_accuracy_llm_failure (state : EmailState) (w : World) (e : Exn) :
  llm E (length (llm_prompts w)) (accuracy_prompt E state) = Raise e ->
  exists w', check_accuracy E state w = (Raise e, w').
Proof.
  intros Hllm. unfold check_accuracy. run_node.
  fold (accuracy_prompt E state). rewrite Hllm.
  eexists. reflexivity.
Qed.

(** An answer that parses to a dict without overall_score raises KeyError
    at the log line, and one that parses to something other than a dict
    raises TypeError there. *)
Lemma check_accuracy_unexpected_shape
    (state : EmailState) (w : World) (response : string) (v : json) :
  llm E (length (llm_prompts w)) (accuracy_prompt E state) = Ok response ->
  json_loads E response = Some v ->
  json_subscript v "overall_score" = Raise (KeyError "overall_score")
  \/ json_subscript v "overall_score" = Raise TypeError ->
  exists e w', check_accuracy E state w = (Raise e, w').
Proof.
  intros Hllm Hjson Hsub. unfold check_accuracy. run_node.
  fold (accuracy_prompt E state). rewrite Hllm, Hjson.
  destruct v; cbn [json_subscript] in *;
    try (eexists; eexists; reflexivity).
  destruct Hsub as [ Hsub | Hsub ]; rewrite Hsub;
    eexists; eexists; reflexivity.
Qed.

Lemma parse_failure_routes_to_revision (state : EmailState) (w : World) :
  exists w',
    next_target E accuracy_check
      (set_accuracy_score state
         [ ("overall_score", JInt 0);
           ("recommendation", JStr "REVISE");
           ("feedback", JStr "응답 파싱 실패") ]) w =
    (Ok (Node revision), w').
Proof.
  cbn [next_target]. unfold should_send_email. run_node.
  eexists. reflexivity.
Qed.

(** C2 (as the code has it). When the answer of the model to the
    evaluation prompt is not valid JSON, the evaluation stage does not
    raise: it returns the state with the evaluation set to exactly
    overall_score 0, recommendation "REVISE" and the non-empty feedback
    marker, every other field as it was; the conditional edge then leads
    to the revision stage, so a run standing at the evaluation stage goes
    on there.  This is for parse failures: the answer has to exist. *)
Theorem check_accuracy_parse_failure
    (state : EmailState) (w : World) (response : string) :
  llm E (length (llm_prompts w)) (accuracy_prompt E state) = Ok response ->
  json_loads E response = None ->
  let state' :=
    set_accuracy_score state
      [ ("overall_score", JInt 0);
        ("recommendation", JStr "REVISE");
        ("feedback", JStr "응답 파싱 실패") ] in
  exists w' w'',
    check_accuracy E state w = (Ok state', w')
    /\ "응답 파싱 실패" <> ""
    /\ next_target E accuracy_check state' w' = (Ok (Node revision), w'')
    /\ forall fuel visited,
         graph_invoke E (S fuel) accuracy_check state visited w =
         graph_invoke E fuel revision state'
           (visited ++ [accuracy_check])%list w''.
Proof.
  intros Hllm Hjson state'.
  assert (exists w', check_accuracy E state w = (Ok state', w')) as (w' & Hrun).
  { unfold check_accuracy. run_node. rewrite Hllm, Hjson.
    eexists. reflexivity. }
  destruct (parse_failure_routes_to_revision state w') as (w'' & Hedge).
  exists w', w''. split; [ exact Hrun | ].
  split; [ discriminate | ].
  split; [ exact Hedge | ].
  intros fuel visited. cbn [graph_invoke node_function].
  rewrite Hrun. fold state' in Hedge. now rewrite Hedge.
Qed.

End Nodes.

Lemma append_assoc (a b c : string) : (a ++ b) ++ c = a ++ (b ++ c).
Proof. induction a as [ | ch a IH ]; simpl; [ reflexivity | now rewrite IH ]. Qed.

Lemma split_step (x rest b tail : string) :
  rest = b ++ tail -> x ++ rest = (x ++ b) ++ tail.
Proof. intros ->. symmetry. apply append_assoc. Qed.

Lemma split_done (tail : string) : tail = "" ++ tail.
Proof. reflexivity. Qed.

(** The render timestamp occupies one place of the page; the text before
    it and the text after it are made from the other placeholders. *)
Lemma html_content_text_split
    (a1 a2 a3 a4 a5 a6 a7 a8 a9 a10 a11 a12 a13 : string) :
  exists before after,
    forall updated,
      html_content_text a1 a2 a3 a4 a5 a6 a7 a8 a9 a10 a11 a12 a13 updated =
      before ++ updated ++ after.
Proof.
  eexists. eexists. intros updated. unfold html_content_text.
  repeat first [ apply split_done | apply split_step ].
Qed.

Lemma file_content_last (path content : string) (w w' : World) :
  file_writes w' = (file_writes w ++ [(path, content)])%list ->
  file_content path w' = Some content.
Proof.
  intros Hw. unfold file_content. rewrite Hw, fold_left_app. simpl.
  now rewrite String.eqb_refl.
Qed.

Section Terminal.

Context (E : Env).

Lemma simulate_email_send_ok (state : EmailState) (w : World) :
  exists w',
    simulate_email_send state w =
      (Ok (set_send_status state "전송 완료 (시뮬레이션)"), w')
    /\ llm_prompts w' = llm_prompts w
    /\ file_writes w' = file_writes w.
Proof.
  unfold simulate_email_send. run_node.
  eexists. split; [ reflexivity | ]. split; reflexivity.
Qed.

Lemma output_result_ok (state : EmailState) (w : World) (score : json) :
  dict_lookup "overall_score" (accuracy_score state) = Some score ->
  exists summary w',
    output_result E state w = (Ok (set_result_summary state summary), w')
    /\ llm_prompts w' = llm_prompts w
    /\ file_writes w' = file_writes w.
Proof.
  intros Hscore. unfold output_result, subscript. rewrite Hscore. run_node.
  eexists. eexists. split; [ reflexivity | ]. split; reflexivity.
Qed.

Lemma update_web_page_ok
    (state : EmailState) (w : World) (score : json) (vm sv cb : string) :
  dict_lookup "overall_score" (accuracy_score state) = Some score ->
  dict_lookup "vehicle_model" (parsed_data state) = Some vm ->
  dict_lookup "software_version" (parsed_data state) = Some sv ->
  dict_lookup "control_board" (parsed_data state) = Some cb ->
  open_error E (length (file_writes w)) "email_result.html" = None ->
  exists w',
    update_web_page E state w = (Ok state, w')
    /\ llm_prompts w' = llm_prompts w
    /\ file_writes w' =
         (file_writes w ++
            [ ("email_result.html",
               rendered_page E state score vm sv cb (now E (clock_reads w))) ])%list.
Proof.
  intros Hscore Hvm Hsv Hcb Hopen.
  unfold update_web_page, subscript. rewrite Hscore, Hvm, Hsv, Hcb.
  run_node. rewrite Hopen.
  eexists. split; [ reflexivity | ]. split; reflexivity.
Qed.

(** Conversely, a page was written only if the subscripts succeeded, and
    then the state is returned as it was. *)
Lemma update_web_page_inv (state state' : EmailState) (w w' : World) :
  update_web_page E state w = (Ok state', w') ->
  exists score vm sv cb,
    state' = state
    /\ dict_lookup "overall_score" (accuracy_score state) = Some score
    /\ dict_lookup "vehicle_model" (parsed_data state) = Some vm
    /\ dict_lookup "software_version" (parsed_data state) = Some sv
    /\ dict_lookup "control_board" (parsed_data state) = Some cb
    /\ file_writes w' =
         (file_writes w ++
            [ ("email_result.html",
               rendered_page E state score vm sv cb (now E (clock_reads w))) ])%list.
Proof.
  unfold update_web_page, subscript.
  destruct (dict_lookup "overall_score" (accuracy_score state)) as [ score | ];
    [ | run_node; discriminate ].
  destruct (dict_lookup "vehicle_model" (parsed_data state)) as [ vm | ];
    [ | run_node; discriminate ].
  destruct (dict_lookup "software_version" (parsed_data state)) as [ sv | ];
    [ | run_node; discriminate ].
  destruct (dict_lookup "control_board" (parsed_data state)) as [ cb | ];
    [ | run_node; discriminate ].
  run_node.
  destruct (open_error E _ _); [ discriminate | ].
  intros H. injection H as <- <-.
  exists score, vm, sv, cb. repeat split; reflexivity.
Qed.

(** C9. Two invocations of the publish stage on one state, each at its
    own moment, leave the state as it was and write to email_result.html
    two pages that have the same text before the render timestamp and the
    same text after it: they differ at most in the timestamp. *)
Theorem update_web_page_twice
    (state st1 st2 : EmailState) (w1 w1' w2 w2' : World) :
  update_web_page E state w1 = (Ok st1, w1') ->
  update_web_page E st1 w2 = (Ok st2, w2') ->
  st1 = state /\ st2 = state
  /\ exists before after,
       file_content "email_result.html" w1' =
         Some (before
               ++ strftime E (now E (clock_reads w1)) "%Y-%m-%d %H:%M:%S"
               ++ after)
       /\ file_content "email_result.html" w2' =
            Some (before
                  ++ strftime E (now E (clock_reads w2)) "%Y-%m-%d %H:%M:%S"
                  ++ after).
Proof.
  intros H1 H2.
  apply update_web_page_inv in H1
    as (score & vm & sv & cb & -> & Hs & Hvm & Hsv & Hcb & Hw1).
  apply update_web_page_inv in H2
    as (score' & vm' & sv' & cb' & -> & Hs' & Hvm' & Hsv' & Hcb' & Hw2).
  split; [ reflexivity | split; [ reflexivity | ] ].
  apply file_content_last in Hw1. apply file_content_last in Hw2.
  rewrite Hw1, Hw2. unfold rendered_page.
  (* the subscripts are those of the same state *)
  assert (score' = score /\ vm' = vm /\ sv' = sv /\ cb' = cb) as Hsame.
  { repeat split; congruence. }
  destruct Hsame as (-> & -> & -> & ->).
  destruct (html_content_text_split
              (processing_time state) (send_status state) (py_str E score)
              (user_input state) vm sv cb (generated_email state)
              (show_get E (accuracy_score state) "parsing_accuracy" "N/A")
              (show_get E (accuracy_score state) "format_compliance" "N/A")
              (show_get E (accuracy_score state) "required_info" "N/A")
              (show_get E (accuracy_score state) "format_completeness" "N/A")
              (show_get E (accuracy_score state) "feedback" "없음"))
    as (before & after & Hsplit).
  exists before, after. now rewrite !Hsplit.
Qed.

End Terminal.

(** ** The orchestrator *)

Section Orchestrator.

Context (E : Env).

Lemma graph_invoke_step
    (fuel : nat) (n n' : node) (state state1 : EmailState)
    (visited : list node) (w w1 w2 : World) :
  node_function E n state w = (Ok state1, w1) ->
  next_target E n state1 w1 = (Ok (Node n'), w2) ->
  graph_invoke E (S fuel) n state visited w =
  graph_invoke E fuel n' state1 (visited ++ [n])%list w2.
Proof.
  intros Hnode Hnext. cbn [graph_invoke]. now rewrite Hnode, Hnext.
Qed.

Lemma graph_invoke_end
    (fuel : nat) (n : node) (state state1 : EmailState)
    (visited : list node) (w w1 w2 : World) :
  node_function E n state w = (Ok state1, w1) ->
  next_target E n state1 w1 = (Ok END, w2) ->
  graph_invoke E (S fuel) n state visited w =
  (Finished state1, (visited ++ [n])%list, w2).
Proof.
  intros Hnode Hnext. cbn [graph_invoke]. now rewrite Hnode, Hnext.
Qed.

(** The conditional edge: to the send simulation on a perfect evaluation,
    to the revision stage on any other. *)
Lemma next_target_accuracy_check (state : EmailState) (w : World) :
  exists w',
    next_target E accuracy_check state w =
      (Ok (Node (if perfect_evaluation (accuracy_score state)
                 then email_simulation else revision)), w')
    /\ llm_prompts w' = llm_prompts w
    /\ file_writes w' = file_writes w.
Proof.
  cbn [next_target]. unfold should_send_email, perfect_evaluation.
  destruct (py_eq_int _ 100 && py_eq_str _ "APPROVE"); run_node;
    eexists; (split; [ reflexivity | split; reflexivity ]).
Qed.

(** No edge leads back to the input-processing stage. *)
Lemma next_target_not_entry (n n' : node) (state : EmailState) (w w' : World) :
  next_target E n state w = (Ok (Node n'), w') -> n' <> input_processing.
Proof.
  destruct n;
    try (cbn [next_target]; unfold ret; intros H;
         first [ discriminate H | injection H as <- _; discriminate ]).
  destruct (next_target_accuracy_check state w) as (w'' & Hn & _).
  rewrite Hn. intros H. injection H as <- _.
  destruct (perfect_evaluation _); discriminate.
Qed.

(** Apart from the input-processing stage no node assigns user_input or
    processing_time. *)
Lemma node_keeps_inputs (n : node) (state state' : EmailState) (w w' : World) :
  n <> input_processing ->
  node_function E n state w = (Ok state', w') ->
  user_input state' = user_input state
  /\ processing_time state' = processing_time state.
Proof.
  intros Hn.
  destruct n; try contradiction; cbn [node_function].
  - (* email_generation *)
    unfold generate_email. run_node.
    destruct (llm E _ _); intros H; [ | discriminate ].
    injection H as <- _. split; reflexivity.
  - (* accuracy_check *)
    unfold check_accuracy. run_node.
    destruct (llm E _ _) as [ response | ]; [ | discriminate ].
    destruct (json_loads E response) as [ [ | | | | | | d ] | ];
      cbn [json_subscript]; try discriminate.
    + unfold subscript. destruct (dict_lookup "overall_score" d);
        intros H; [ | discriminate ].
      injection H as <- _. split; reflexivity.
    + intros H. injection H as <- _. split; reflexivity.
  - (* email_simulation *)
    unfold simulate_email_send. run_node.
    intros H. injection H as <- _. split; reflexivity.
  - (* result_output *)
    unfold output_result, subscript. run_node.
    destruct (dict_lookup "overall_score" (accuracy_score state));
      intros H; [ | discriminate ].
    injection H as <- _. split; reflexivity.
  - (* web_update *)
    intros H. apply update_web_page_inv in H as (? & ? & ? & ? & -> & _).
    split; reflexivity.
  - (* revision *)
    unfold revise_email. run_node.
    intros H. injection H as <- _. split; reflexivity.
Qed.

Lemma graph_invoke_keeps_inputs (fuel : nat) :
  forall (n : node) (state : EmailState) (visited : list node) (w : World)
         (state' : EmailState),
    n <> input_processing ->
    state_of (fst (fst (graph_invoke E fuel n state visited w))) = Some state' ->
    user_input state' = user_input state
    /\ processing_time state' = processing_time state.
Proof.
  induction fuel as [ | fuel IH ]; intros n state visited w state' Hn.
  - cbn. intros H. injection H as <-. split; reflexivity.
  - cbn [graph_invoke].
    destruct (node_function E n state w) as [ [ state1 | e ] w1 ] eqn:Hnode;
      [ | discriminate ].
    destruct (node_keeps_inputs n state state1 w w1 Hn Hnode) as [ Hu Hp ].
    destruct (next_target E n state1 w1) as [ [ [ n' | ] | e ] w2 ] eqn:Hnext;
      [ | | discriminate ].
    + intros H. apply IH in H.
      * rewrite <- Hu, <- Hp. exact H.
      * exact (next_target_not_entry n n' state1 w1 w2 Hnext).
    + cbn. intros H. injection H as <-. split; assumption.
Qed.

(** C5. Once the input-processing stage has run, user_input and
    processing_time stay as it left them: none of the generation,
    evaluation and revision stages assigns either, and however many nodes
    the run has executed since, so after any number of turns of the revise
    loop, the state of the run holds the same two values. *)
Theorem inputs_fixed_after_processing
    (text : string) (w w1 : World) (state1 : EmailState) :
  process_input E (initial_state text) w = (Ok state1, w1) ->
  (forall n state state' v v',
      n = email_generation \/ n = accuracy_check \/ n = revision ->
      node_function E n state v = (Ok state', v') ->
      user_input state' = user_input state
      /\ processing_time state' = processing_time state)
  /\ user_input state1 = text
  /\ forall fuel state',
       state_of (fst (fst (run E (S fuel) text w))) = Some state' ->
       user_input state' = user_input state1
       /\ processing_time state' = processing_time state1.
Proof.
  intros Hproc. split; [ | split ].
  - intros n state state' v v' Hcycle.
    apply node_keeps_inputs.
    destruct Hcycle as [ -> | [ -> | -> ] ]; discriminate.
  - destruct (process_input_spec E (initial_state text) w)
      as (s & v & Hs & Hu & _).
    rewrite Hproc in Hs. injection Hs as <- <-. exact Hu.
  - intros fuel state'. unfold run.
    rewrite (graph_invoke_step fuel input_processing email_generation
               (initial_state text) state1 [] w w1 w1 Hproc eq_refl).
    apply graph_invoke_keeps_inputs. discriminate.
Qed.

(** C3. When the first evaluation comes back with overall_score 100 and
    recommendation "APPROVE", the run executes input processing, the
    generation stage once, the evaluation stage once, then the send
    simulation, the summary and the publication, in this order and nothing
    else, in particular never the revision stage; it finishes there, with
    send_status set to the simulated-completion marker, after two calls of
    the model. *)
Theorem run_sends_after_first_perfect_evaluation
    (text : string) (w : World) (draft response : string)
    (d : dict json) (score : json) :
  (forall p, llm E (length (llm_prompts w)) p = Ok draft) ->
  (forall p, llm E (S (length (llm_prompts w))) p = Ok response) ->
  json_loads E response = Some (JObj d) ->
  dict_lookup "overall_score" d = Some score ->
  py_eq_int score 100 = true ->
  dict_lookup "recommendation" d = Some (JStr "APPROVE") ->
  open_error E (length (file_writes w)) "email_result.html" = None ->
  exists final w',
    (forall fuel,
        run E (6 + fuel) text w =
        (Finished final,
         [ input_processing; email_generation; accuracy_check;
           email_simulation; result_output; web_update ],
         w'))
    /\ send_status final = "전송 완료 (시뮬레이션)"
    /\ generated_email final = draft
    /\ accuracy_score final = d
    /\ length (llm_prompts w') = 2 + length (llm_prompts w).
Proof.
  intros Hdraft Hresponse Hjson Hscore H100 Hrec Hopen.
  (* input processing *)
  destruct (process_input_spec E (initial_state text) w)
    as (s1 & w1 & Hn1 & _ & _ & Hvm & Hsv & Hcb & _ & _ & Hl1 & Hf1).
  (* generation *)
  destruct (generate_email_ok E s1 w1 draft) as (w2 & Hn2 & Hl2 & Hf2).
  { rewrite Hl1. apply Hdraft. }
  set (s2 := set_generated_email s1 draft) in *.
  (* evaluation *)
  destruct (check_accuracy_ok E s2 w2 response d score)
    as (w3 & Hn3 & Hl3 & Hf3); trivial.
  { rewrite Hl2, Hl1, length_app, Nat.add_comm. apply Hresponse. }
  set (s3 := set_accuracy_score s2 d) in *.
  (* the conditional edge *)
  destruct (next_target_accuracy_check s3 w3) as (w4 & He3 & Hl4 & Hf4).
  assert (perfect_evaluation (accuracy_score s3) = true) as Hperfect.
  { unfold perfect_evaluation, dict_get. cbn [s3 accuracy_score set_accuracy_score].
    rewrite Hscore, Hrec, H100. reflexivity. }
  rewrite Hperfect in He3.
  (* the terminal stages *)
  destruct (simulate_email_send_ok s3 w4) as (w5 & Hn5 & Hl5 & Hf5).
  set (s5 := set_send_status s3 "전송 완료 (시뮬레이션)") in *.
  destruct (output_result_ok E s5 w5 score Hscore)
    as (summary & w6 & Hn6 & Hl6 & Hf6).
  set (s6 := set_result_summary s5 summary) in *.
  destruct (update_web_page_ok E s6 w6 score _ _ _ Hscore Hvm Hsv Hcb)
    as (w7 & Hn7 & Hl7 & _).
  { rewrite Hf6, Hf5, Hf4, Hf3, Hf2, Hf1. exact Hopen. }
  exists s6, w7. split; [ | repeat split ].
  - intros fuel. unfold run. cbn [Nat.add].
    rewrite (graph_invoke_step _ input_processing email_generation
               _ _ _ _ _ w1 Hn1 eq_refl).
    rewrite (graph_invoke_step _ email_generation accuracy_check
               _ _ _ _ _ w2 Hn2 eq_refl).
    rewrite (graph_invoke_step _ accuracy_check email_simulation
               _ _ _ _ _ _ Hn3 He3).
    rewrite (graph_invoke_step _ email_simulation result_output
               _ _ _ _ _ w5 Hn5 eq_refl).
    rewrite (graph_invoke_step _ result_output web_update
               _ _ _ _ _ w6 Hn6 eq_refl).
    rewrite (graph_invoke_end _ web_update _ _ _ _ _ w7 Hn7 eq_refl).
    reflexivity.
  - rewrite Hl7, Hl6, Hl5, Hl4, Hl3, Hl2, Hl1, !length_app. simpl. lia.
Qed.

(** One turn of the revise loop, for an evaluation that is not perfect. *)
Lemma revise_loop_turn
    (fuel : nat) (state : EmailState) (visited : list node) (w : World)
    (draft response : string) (d : dict json) (score : json) :
  llm E (length (llm_prompts w)) (generation_prompt E state) = Ok draft ->
  llm E (S (length (llm_prompts w)))
    (accuracy_prompt E (set_generated_email state draft)) = Ok response ->
  json_loads E response = Some (JObj d) ->
  dict_lookup "overall_score" d = Some score ->
  perfect_evaluation d = false ->
  exists state' w',
    graph_invoke E (3 + fuel) email_generation state visited w =
    graph_invoke E fuel email_generation state'
      (visited ++ [email_generation; accuracy_check; revision])%list w'
    /\ length (llm_prompts w') = 2 + length (llm_prompts w).
Proof.
  intros Hdraft Hresponse Hjson Hscore Himperfect.
  destruct (generate_email_ok E state w draft Hdraft) as (w1 & Hn1 & Hl1 & _).
  set (s1 := set_generated_email state draft) in *.
  destruct (check_accuracy_ok E s1 w1 response d score)
    as (w2 & Hn2 & Hl2 & _); trivial.
  { rewrite Hl1, length_app, Nat.add_comm. exact Hresponse. }
  set (s2 := set_accuracy_score s1 d) in *.
  destruct (next_target_accuracy_check s2 w2) as (w3 & He2 & Hl3 & _).
  cbn [s2 accuracy_score set_accuracy_score] in He2.
  rewrite Himperfect in He2.
  destruct (revise_email_ok E s2 w3) as (w4 & Hn4 & Hl4 & _).
  exists s2, w4. split.
  - cbn [Nat.add].
    rewrite (graph_invoke_step _ email_generation accuracy_check
               _ _ _ _ _ w1 Hn1 eq_refl).
    rewrite (graph_invoke_step _ accuracy_check revision _ _ _ _ _ _ Hn2 He2).
    rewrite (graph_invoke_step _ revision email_generation
               _ _ _ _ _ w4 Hn4 eq_refl).
    now rewrite <- !app_assoc.
  - rewrite Hl4, Hl3, Hl2, Hl1, !length_app. simpl. lia.
Qed.

Section NeverPerfect.

(** The model of the non-convergence scenario, seen from a world [w0]:
    counting from the calls already made, every even call (a generation)
    answers, and every odd call (an evaluation) answers with a document
    that parses to overall_score 80 and recommendation "REVISE". *)
Variable w0 : World.

Hypothesis generation_answers :
  forall i p, exists draft,
    llm E (length (llm_prompts w0) + 2 * i) p = Ok draft.

Hypothesis evaluation_says_80_revise :
  forall i p, exists response d,
    llm E (S (length (llm_prompts w0) + 2 * i)) p = Ok response
    /\ json_loads E response = Some (JObj d)
    /\ dict_lookup "overall_score" d = Some (JInt 80)
    /\ dict_lookup "recommendation" d = Some (JStr "REVISE").

Lemma score_80_revise_imperfect (d : dict json) :
  dict_lookup "overall_score" d = Some (JInt 80) ->
  dict_lookup "recommendation" d = Some (JStr "REVISE") ->
  perfect_evaluation d = false.
Proof.
  intros Hs Hr. unfold perfect_evaluation, dict_get. now rewrite Hs, Hr.
Qed.

Lemma revise_loop_turns (k : nat) :
  forall (fuel i : nat) (state : EmailState) (visited : list node) (w : World),
    length (llm_prompts w) = length (llm_prompts w0) + 2 * i ->
    exists state' w',
      graph_invoke E (3 * k + fuel) email_generation state visited w =
      graph_invoke E fuel email_generation state' (visited ++ cycles k)%list w'
      /\ length (llm_prompts w') = length (llm_prompts w0) + 2 * (i + k).
Proof.
  induction k as [ | k IH ]; intros fuel i state visited w Hlen.
  - exists state, w. cbn [cycles Nat.mul Nat.add].
    rewrite app_nil_r, Nat.add_0_r. split; [ reflexivity | exact Hlen ].
  - destruct (generation_answers i (generation_prompt E state))
      as (draft & Hdraft).
    destruct (evaluation_says_80_revise i
                (accuracy_prompt E (set_generated_email state draft)))
      as (response & d & Hresponse & Hjson & Hscore & Hrec).
    rewrite <- Hlen in Hdraft, Hresponse.
    destruct (revise_loop_turn (3 * k + fuel) state visited w draft response
                d (JInt 80) Hdraft Hresponse Hjson Hscore
                (score_80_revise_imperfect d Hscore Hrec))
      as (s1 & w1 & Hturn & Hlen1).
    destruct (IH fuel (S i) s1
                (visited ++ [email_generation; accuracy_check; revision])%list
                w1)
      as (s2 & w2 & Hrest & Hlen2).
    { rewrite Hlen1, Hlen. lia. }
    exists s2, w2. split.
    + replace (3 * S k + fuel) with (3 + (3 * k + fuel)) by lia.
      rewrite Hturn, Hrest. cbn [cycles]. now rewrite <- app_assoc.
    + rewrite Hlen2. lia.
Qed.

(** Short of a whole turn the run is still inside the loop. *)
Lemma revise_loop_partial_turn (r i : nat)
    (state : EmailState) (visited : list node) (w : World) :
  r < 3 ->
  length (llm_prompts w) = length (llm_prompts w0) + 2 * i ->
  exists n state' visited' w',
    graph_invoke E r email_generation state visited w =
    (Running n state', visited', w').
Proof.
  intros Hr Hlen.
  destruct (generation_answers i (generation_prompt E state))
    as (draft & Hdraft).
  destruct (evaluation_says_80_revise i
              (accuracy_prompt E (set_generated_email state draft)))
    as (response & d & Hresponse & Hjson & Hscore & Hrec).
  rewrite <- Hlen in Hdraft, Hresponse.
  destruct (generate_email_ok E state w draft Hdraft) as (w1 & Hn1 & Hl1 & _).
  destruct (check_accuracy_ok E (set_generated_email state draft) w1
              response d (JInt 80))
    as (w2 & Hn2 & _); trivial.
  { rewrite Hl1, length_app, Nat.add_comm. exact Hresponse. }
  destruct (next_target_accuracy_check
              (set_accuracy_score (set_generated_email state draft) d) w2)
    as (w3 & He2 & _).
  cbn [accuracy_score set_accuracy_score] in He2.
  rewrite (score_80_revise_imperfect d Hscore Hrec) in He2.
  destruct r as [ | [ | [ | r ] ] ]; [ | | | lia ].
  - eexists _, _, _, _. reflexivity.
  - rewrite (graph_invoke_step _ email_generation accuracy_check
               _ _ _ _ _ w1 Hn1 eq_refl).
    eexists _, _, _, _. reflexivity.
  - rewrite (graph_invoke_step _ email_generation accuracy_check
               _ _ _ _ _ w1 Hn1 eq_refl).
    rewrite (graph_invoke_step _ accuracy_check revision _ _ _ _ _ _ Hn2 He2).
    eexists _, _, _, _. reflexivity.
Qed.

End NeverPerfect.


End Orchestrator.

(** * The workflow on the stand-ins *)

Import StandIn.

(** A perfect first evaluation: six nodes, the marker set, the page
    written once. *)
Example run_approved :
  snd (fst (run approving 10 sample_input fresh)) =
    [ input_processing; email_generation; accuracy_check;
      email_simulation; result_output; web_update ]
  /\ option_map send_status
       (state_of (fst (fst (run approving 10 sample_input fresh)))) =
     Some "전송 완료 (시뮬레이션)"
  /\ length (file_writes (snd (run approving 10 sample_input fresh))) = 1.
Proof. vm_compute. repeat split. Qed.

(** An answer that is valid JSON but has no overall_score stops the run
    with KeyError in the evaluation stage. *)
Example run_evaluation_without_score :
  fst (run forgetful 10 sample_input fresh) =
  (Aborted (KeyError "overall_score"),
   [ input_processing; email_generation; accuracy_check ]).
Proof. vm_compute. reflexivity. Qed.

(** C2, against the claim as written: a failure of the evaluation stage
    that aborts the run.  The model answers the generation call and
    cannot be reached for the evaluation call; the evaluation stage raises
    the error of the call, and the run stops there without reaching the
    revision stage. *)
Lemma evaluation_failure_aborts_run :
  fst (check_accuracy evaluation_down
         (set_generated_email processed draft)
         (mkWorld [ generation_prompt evaluation_down processed ] 2 [] [] []))
  = Raise connection_refused
  /\ fst (run evaluation_down 10 sample_input fresh) =
     (Aborted connection_refused,
      [ input_processing; email_generation; accuracy_check ]).
Proof. split; vm_compute; reflexivity. Qed.

(** The hypotheses of the theorems above can be met. *)

Lemma should_send_email_iff_witness :
  py_eq_int (dict_get (accuracy_score sent) "overall_score" (JInt 0)) 100 = true
  /\ dict_get (accuracy_score sent) "recommendation" (JStr "REVISE") =
       JStr "APPROVE"
  /\ fst (should_send_email approving sent fresh) = Ok "send".
Proof.
  split; [ reflexivity | split; [ reflexivity | ] ].
  apply (proj1 (should_send_email_iff approving sent fresh)).
  split; reflexivity.
Defined.

Lemma should_send_email_total_witness :
  dict_lookup "overall_score" (accuracy_score (initial_state sample_input)) = None
  /\ fst (should_send_email approving (initial_state sample_input) fresh) =
     Ok "revise".
Proof.
  split; [ reflexivity | ].
  destruct (proj1 (should_send_email_total approving
                     (initial_state sample_input) fresh))
    as (branch & w' & Hrun & _ & Habsent).
  rewrite Hrun. cbn [fst]. f_equal. apply Habsent. left. reflexivity.
Defined.

Lemma check_accuracy_parse_failure_witness :
  llm garbling (length (llm_prompts fresh)) (accuracy_prompt garbling processed) =
    Ok "Sure! Here is my evaluation."
  /\ json_loads garbling "Sure! Here is my evaluation." = None
  /\ exists w' w'',
       check_accuracy garbling processed fresh =
         (Ok (set_accuracy_score processed
                [ ("overall_score", JInt 0);
                  ("recommendation", JStr "REVISE");
                  ("feedback", JStr "응답 파싱 실패") ]), w')
       /\ "응답 파싱 실패" <> ""
       /\ next_target garbling accuracy_check
            (set_accuracy_score processed
               [ ("overall_score", JInt 0);
                 ("recommendation", JStr "REVISE");
                 ("feedback", JStr "응답 파싱 실패") ]) w' =
          (Ok (Node revision), w'')
       /\ forall fuel visited,
            graph_invoke garbling (S fuel) accuracy_check processed visited
              fresh =
            graph_invoke garbling fuel revision
              (set_accuracy_score processed
                 [ ("overall_score", JInt 0);
                   ("recommendation", JStr "REVISE");
                   ("feedback", JStr "응답 파싱 실패") ])
              (visited ++ [accuracy_check])%list w''.
Proof.
  split; [ reflexivity | split; [ reflexivity | ] ].
  apply (check_accuracy_parse_failure garbling processed fresh
           "Sure! Here is my evaluation."); reflexivity.
Defined.

Lemma generate_email_failure_aborts_witness :
  llm generation_down (length (llm_prompts fresh))
    (generation_prompt generation_down processed) = Raise connection_refused
  /\ exists w',
       generate_email generation_down processed fresh =
         (Raise connection_refused, w')
       /\ llm_prompts w' =
            (llm_prompts fresh ++ [generation_prompt generation_down processed])%list
       /\ forall fuel visited,
            graph_invoke generation_down (S fuel) email_generation processed
              visited fresh =
            (Aborted connection_refused,
             (visited ++ [email_generation])%list, w').
Proof.
  split; [ reflexivity | ].
  apply (generate_email_failure_aborts generation_down processed fresh
           connection_refused).
  reflexivity.
Defined.

Lemma run_sends_after_first_perfect_evaluation_witness :
  (forall p, llm approving (length (llm_prompts fresh)) p = Ok draft)
  /\ (forall p, llm approving (S (length (llm_prompts fresh))) p =
                Ok approve_document)
  /\ json_loads approving approve_document =
       Some (JObj [ ("overall_score", JInt 100);
                    ("recommendation", JStr "APPROVE") ])
  /\ open_error approving (length (file_writes fresh)) "email_result.html" = None
  /\ exists final w',
       (forall fuel,
           run approving (6 + fuel) sample_input fresh =
           (Finished final,
            [ input_processing; email_generation; accuracy_check;
              email_simulation; result_output; web_update ],
            w'))
       /\ send_status final = "전송 완료 (시뮬레이션)"
       /\ generated_email final = draft
       /\ accuracy_score final =
            [ ("overall_score", JInt 100); ("recommendation", JStr "APPROVE") ]
       /\ length (llm_prompts w') = 2 + length (llm_prompts fresh).
Proof.
  split; [ intros p; reflexivity | ].
  split; [ intros p; reflexivity | ].
  split; [ reflexivity | ].
  split; [ reflexivity | ].
  apply (run_sends_after_first_perfect_evaluation approving sample_input fresh
           draft approve_document
           [ ("overall_score", JInt 100); ("recommendation", JStr "APPROVE") ]
           (JInt 100));
    solve [ intros p; reflexivity | reflexivity ].
Defined.

Lemma never_satisfied_even (i : nat) (p : string) :
  never_satisfied (length (llm_prompts fresh) + 2 * i) p = Ok draft.
Proof.
  unfold never_satisfied. cbn [fresh llm_prompts length Nat.add].
  rewrite Nat.even_mul. reflexivity.
Defined.

Lemma never_satisfied_odd (i : nat) (p : string) :
  never_satisfied (S (length (llm_prompts fresh) + 2 * i)) p =
  Ok revise_document.
Proof.
  unfold never_satisfied. cbn [fresh llm_prompts length Nat.add].
  rewrite Nat.even_succ, Nat.odd_mul. reflexivity.
Defined.


Lemma inputs_fixed_after_processing_witness :
  process_input demanding (initial_state sample_input) fresh =
    (Ok processed, snd (process_input demanding (initial_state sample_input) fresh))
  /\ forall fuel state',
       state_of (fst (fst (run demanding (S fuel) sample_input fresh))) =
         Some state' ->
       user_input state' = sample_input
       /\ processing_time state' = "2024-05-17 09:30:01".
Proof.
  assert (process_input demanding (initial_state sample_input) fresh =
          (Ok processed,
           snd (process_input demanding (initial_state sample_input) fresh)))
    as Hprocessed by (vm_compute; reflexivity).
  split; [ exact Hprocessed | ].
  exact (proj2 (proj2 (inputs_fixed_after_processing demanding sample_input fresh
                         _ processed Hprocessed))).
Defined.

Lemma update_web_page_twice_witness :
  update_web_page approving sent fresh =
    (Ok sent, snd (update_web_page approving sent fresh))
  /\ update_web_page approving sent (snd (update_web_page approving sent fresh)) =
       (Ok sent,
        snd (update_web_page approving sent
               (snd (update_web_page approving sent fresh))))
  /\ exists before after,
       file_content "email_result.html"
         (snd (update_web_page approving sent fresh)) =
         Some (before ++ "2024-05-17 09:30:00" ++ after)
       /\ file_content "email_result.html"
            (snd (update_web_page approving sent
                    (snd (update_web_page approving sent fresh)))) =
            Some (before ++ "2024-05-17 09:30:01" ++ after).
Proof.
  assert (update_web_page approving sent fresh =
          (Ok sent, snd (update_web_page approving sent fresh))) as H1
    by (vm_compute; reflexivity).
  assert (update_web_page approving sent
            (snd (update_web_page approving sent fresh)) =
          (Ok sent,
           snd (update_web_page approving sent
                  (snd (update_web_page approving sent fresh))))) as H2
    by (vm_compute; reflexivity).
  split; [ exact H1 | split; [ exact H2 | ] ].
  exact (proj2 (proj2 (update_web_page_twice approving sent sent sent
                         fresh _ _ _ H1 H2))).
Defined.

(** * Further properties of the nodes *)

Section NodeCases.

Context (E : Env).

(** The generation stage, whatever the model does: one prompt goes out,
    nothing is printed or written, and the answer becomes the draft or the
    error leaves the stage. *)
Lemma generate_email_cases (state : EmailState) (w : World) :
  exists w1,
    llm_prompts w1 = (llm_prompts w ++ [generation_prompt E state])%list
    /\ stdout w1 = stdout w
    /\ file_writes w1 = file_writes w
    /\ generate_email E state w =
       match llm E (length (llm_prompts w)) (generation_prompt E state) with
       | Ok draft => (Ok (set_generated_email state draft), w1)
       | Raise e => (Raise e, w1)
       end.
Proof.
  unfold generate_email. run_node.
  destruct (llm E _ _); settle_world.
Qed.

(** The evaluation stage, case by case on the answer. *)
Lemma check_accuracy_cases (state : EmailState) (w : World) :
  exists w1,
    llm_prompts w1 = (llm_prompts w ++ [accuracy_prompt E state])%list
    /\ stdout w1 = stdout w
    /\ file_writes w1 = file_writes w
    /\ check_accuracy E state w =
       match llm E (length (llm_prompts w)) (accuracy_prompt E state) with
       | Raise e => (Raise e, w1)
       | Ok response =>
           match json_loads E response with
           | None => (Ok (set_accuracy_score state fallback_evaluation), w1)
           | Some (JObj d) =>
               match dict_lookup "overall_score" d with
               | Some _ => (Ok (set_accuracy_score state d), w1)
               | None => (Raise (KeyError "overall_score"), w1)
               end
           | Some _ => (Raise TypeError, w1)
           end
       end.
Proof.
  unfold check_accuracy. run_node.
  destruct (llm E _ _) as [ response | e ]; [ | settle_world ].
  destruct (json_loads E response) as [ [ | | | | | | d ] | ];
    cbn [json_subscript]; try settle_world.
  unfold subscript.
  destruct (dict_lookup "overall_score" d); settle_world.
Qed.

Lemma output_result_cases (state : EmailState) (w : World) :
  exists w1,
    llm_prompts w1 = llm_prompts w
    /\ file_writes w1 = file_writes w
    /\ match dict_lookup "overall_score" (accuracy_score state) with
       | Some _ =>
           exists summary,
             output_result E state w = (Ok (set_result_summary state summary), w1)
             /\ stdout w1 = (stdout w ++ [summary])%list
       | None =>
           output_result E state w = (Raise (KeyError "overall_score"), w1)
           /\ stdout w1 = stdout w
       end.
Proof.
  unfold output_result, subscript.
  destruct (dict_lookup "overall_score" (accuracy_score state)); run_node.
  - eexists. split; [ | split; [ | eexists; split; reflexivity ] ]; reflexivity.
  - eexists. split; [ | split; [ | split; reflexivity ] ]; reflexivity.
Qed.

(** The perfect evaluation has a score. *)
Lemma perfect_has_score (e : dict json) :
  perfect_evaluation e = true ->
  exists score, dict_lookup "overall_score" e = Some score.
Proof.
  unfold perfect_evaluation, dict_get.
  destruct (dict_lookup "overall_score" e) as [ score | ].
  - intros _. now exists score.
  - cbn. discriminate.
Qed.

Lemma fallback_not_perfect : perfect_evaluation fallback_evaluation = false.
Proof. reflexivity. Qed.

(** The conditional edge, with all it does to the world. *)
Lemma next_target_frame (n : node) (state : EmailState) (w : World) :
  exists n' w',
    next_target E n state w = (Ok n', w')
    /\ llm_prompts w' = llm_prompts w
    /\ stdout w' = stdout w
    /\ file_writes w' = file_writes w
    /\ n' = match n with
            | input_processing => Node email_generation
            | email_generation => Node accuracy_check
            | accuracy_check =>
                Node (if perfect_evaluation (accuracy_score state)
                      then email_simulation else revision)
            | revision => Node email_generation
            | email_simulation => Node result_output
            | result_output => Node web_update
            | web_update => END
            end.
Proof.
  destruct n; cbn [next_target]; unfold ret;
    try (eexists; eexists; repeat split; reflexivity).
  unfold should_send_email, perfect_evaluation.
  destruct (py_eq_int _ 100 && py_eq_str _ "APPROVE"); run_node;
    eexists; eexists;
    (split; [ reflexivity | ]); repeat split; reflexivity.
Qed.

(** The publish stage, case by case: a missing key before anything
    else, then the clock, then the file. *)
Lemma update_web_page_cases (state : EmailState) (w : World) :
  exists w1,
    llm_prompts w1 = llm_prompts w
    /\ stdout w1 = stdout w
    /\ match first_missing_key state with
       | Some key =>
           update_web_page E state w = (Raise (KeyError key), w1)
           /\ file_writes w1 = file_writes w
           /\ clock_reads w1 = clock_reads w
       | None =>
           clock_reads w1 = S (clock_reads w)
           /\ match open_error E (length (file_writes w)) "email_result.html" with
              | Some e =>
                  update_web_page E state w = (Raise e, w1)
                  /\ file_writes w1 = file_writes w
              | None =>
                  update_web_page E state w = (Ok state, w1)
                  /\ exists page,
                       file_writes w1 =
                       (file_writes w ++ [("email_result.html", page)])%list
              end
       end.
Proof.
  unfold update_web_page, first_missing_key, subscript.
  destruct (dict_lookup "overall_score" (accuracy_score state));
    [ | run_node; pin_world ].
  destruct (dict_lookup "vehicle_model" (parsed_data state));
    [ | run_node; pin_world ].
  destruct (dict_lookup "software_version" (parsed_data state));
    [ | run_node; pin_world ].
  destruct (dict_lookup "control_board" (parsed_data state));
    [ | run_node; pin_world ].
  run_node.
  destruct (open_error E _ _); pin_world.
  eexists. reflexivity.
Qed.

(** X1. An answer that parses but has no overall_score to subscript -- a
    dict without the key, or anything that is not a dict -- makes the
    evaluation stage raise the error of the subscript, KeyError or
    TypeError: the handler is for JSONDecodeError only.  The model was
    called once, and a run standing at the stage is aborted there. *)
Theorem check_accuracy_wrong_shape
    (state : EmailState) (w : World) (response : string) (v : json) (e : Exn) :
  llm E (length (llm_prompts w)) (accuracy_prompt E state) = Ok response ->
  json_loads E response = Some v ->
  json_subscript v "overall_score" = Raise e ->
  (e = KeyError "overall_score" \/ e = TypeError)
  /\ exists w1,
       check_accuracy E state w = (Raise e, w1)
       /\ llm_prompts w1 = (llm_prompts w ++ [accuracy_prompt E state])%list
       /\ forall fuel visited,
            graph_invoke E (S fuel) accuracy_check state visited w =
            (Aborted e, (visited ++ [accuracy_check])%list, w1).
Proof.
  intros Hllm Hjson Hsub.
  destruct (check_accuracy_cases state w) as (w1 & Hp & _ & _ & Hrun).
  rewrite Hllm, Hjson in Hrun.
  assert ((e = KeyError "overall_score" \/ e = TypeError)
          /\ check_accuracy E state w = (Raise e, w1)) as [ He Hraise ].
  { destruct v as [ | | | | | | d ]; cbn [json_subscript] in Hsub;
      try (injection Hsub as <-; split; [ now right | exact Hrun ]).
    unfold subscript in Hsub.
    destruct (dict_lookup "overall_score" d); [ discriminate | ].
    injection Hsub as <-. split; [ now left | exact Hrun ]. }
  split; [ exact He | ].
  exists w1. split; [ exact Hraise | ]. split; [ exact Hp | ].
  intros fuel visited. cbn [graph_invoke node_function].
  now rewrite Hraise.
Qed.

(** X2. Whenever the evaluation stage returns, the evaluation it leaves is
    the parsed dict of the answer in full or the fallback, in place of
    the previous one, and it has an overall_score; every other field is
    as before, and the model was called once, with the prompt made of
    user_input and the current draft. *)
Theorem check_accuracy_returns
    (state state' : EmailState) (w w' : World) :
  check_accuracy E state w = (Ok state', w') ->
  exists evaluation,
    state' = set_accuracy_score state evaluation
    /\ (exists score, dict_lookup "overall_score" evaluation = Some score)
    /\ (evaluation = fallback_evaluation
        \/ exists response,
             llm E (length (llm_prompts w)) (accuracy_prompt E state) = Ok response
             /\ json_loads E response = Some (JObj evaluation))
    /\ llm_prompts w' =
         (llm_prompts w ++
            [ ACCURACY_CHECK_PROMPT E (user_input state) (generated_email state) ])%list.
Proof.
  intros Hrun.
  destruct (check_accuracy_cases state w) as (w1 & Hp & _ & _ & Hcases).
  rewrite Hrun in Hcases.
  destruct (llm E _ _) as [ response | ]; [ | discriminate ].
  destruct (json_loads E response) as [ [ | | | | | | d ] | ] eqn:Hjson;
    try discriminate.
  - destruct (dict_lookup "overall_score" d) as [ score | ] eqn:Hscore;
      [ | discriminate ].
    injection Hcases as -> ->.
    exists d. split; [ reflexivity | ].
    split; [ now exists score | ].
    split; [ right; now exists response | exact Hp ].
  - injection Hcases as -> ->.
    exists fallback_evaluation. split; [ reflexivity | ].
    split; [ now exists (JInt 0) | ].
    split; [ now left | exact Hp ].
Qed.

(** X3. The summary stage prints exactly the text it stores in
    result_summary and changes no other field; on an evaluation without
    overall_score it raises KeyError and prints nothing.  Either way it
    neither calls the model nor writes a file. *)
Theorem output_result_prints_what_it_stores (state : EmailState) (w : World) :
  exists w1,
    llm_prompts w1 = llm_prompts w
    /\ file_writes w1 = file_writes w
    /\ match dict_lookup "overall_score" (accuracy_score state) with
       | Some _ =>
           exists summary,
             output_result E state w = (Ok (set_result_summary state summary), w1)
             /\ stdout w1 = (stdout w ++ [summary])%list
       | None =>
           output_result E state w = (Raise (KeyError "overall_score"), w1)
           /\ stdout w1 = stdout w
       end.
Proof. exact (output_result_cases state w). Qed.

(** X4. The publish stage: when one of the keys the page needs is absent, it
    raises KeyError for the first of them before it reads the clock or
    opens the file; when the file cannot be opened it raises that error
    and leaves no page; otherwise it returns the state as it was and the
    page is the one new write.  It never calls the model or prints. *)
Theorem update_web_page_outcomes (state : EmailState) (w : World) :
  exists w1,
    llm_prompts w1 = llm_prompts w
    /\ stdout w1 = stdout w
    /\ match first_missing_key state with
       | Some key =>
           update_web_page E state w = (Raise (KeyError key), w1)
           /\ file_writes w1 = file_writes w
           /\ clock_reads w1 = clock_reads w
       | None =>
           clock_reads w1 = S (clock_reads w)
           /\ match open_error E (length (file_writes w)) "email_result.html" with
              | Some e =>
                  update_web_page E state w = (Raise e, w1)
                  /\ file_writes w1 = file_writes w
              | None =>
                  update_web_page E state w = (Ok state, w1)
                  /\ exists page,
                       file_writes w1 =
                       (file_writes w ++ [("email_result.html", page)])%list
              end
       end.
Proof. exact (update_web_page_cases state w). Qed.

End NodeCases.

(** * Whole runs *)

Section Runs.

Context (E : Env).

(** A property of the node a run stands at that every edge carries over
    holds where the run ends. *)
Lemma graph_invoke_ends
    (Inv : node -> EmailState -> list node -> World -> Prop) :
  (forall n state visited w state1 w1 n' w2,
      Inv n state visited w ->
      node_function E n state w = (Ok state1, w1) ->
      next_target E n state1 w1 = (Ok (Node n'), w2) ->
      Inv n' state1 (visited ++ [n])%list w2) ->
  forall fuel n state visited w,
    Inv n state visited w ->
    exists n0 state0 visited0 w0,
      Inv n0 state0 visited0 w0
      /\ ends E n0 state0 visited0 w0 (graph_invoke E fuel n state visited w).
Proof.
  intros Hstep fuel.
  induction fuel as [ | fuel IH ]; intros n state visited w Hinv.
  - exists n, state, visited, w. split; [ exact Hinv | constructor ].
  - cbn [graph_invoke].
    destruct (node_function E n state w) as [ [ state1 | e ] w1 ] eqn:Hnode.
    + destruct (next_target E n state1 w1) as [ [ [ n' | ] | e ] w2 ] eqn:Hedge.
      * apply IH. exact (Hstep _ _ _ _ _ _ _ _ Hinv Hnode Hedge).
      * exists n, state, visited, w. split; [ exact Hinv | ].
        now apply ends_finished with (w1 := w1).
      * exists n, state, visited, w. split; [ exact Hinv | ].
        now apply ends_edge_raised with (state1 := state1) (w1 := w1).
    + exists n, state, visited, w. split; [ exact Hinv | ].
      now apply ends_node_raised.
Qed.

Lemma process_input_result (state : EmailState) (w : World) :
  exists w1,
    llm_prompts w1 = llm_prompts w
    /\ stdout w1 = stdout w
    /\ file_writes w1 = file_writes w
    /\ process_input E state w =
       (Ok (set_parsed state fixed_parsed_data
              (strftime E (now E (clock_reads w)) "%Y-%m-%d")
              (strftime E (now E (S (clock_reads w))) "%Y-%m-%d %H:%M:%S")),
        w1).
Proof. unfold process_input. run_node. settle_world. Qed.

Lemma simulate_email_send_result (state : EmailState) (w : World) :
  exists w1,
    llm_prompts w1 = llm_prompts w
    /\ stdout w1 = stdout w
    /\ file_writes w1 = file_writes w
    /\ simulate_email_send state w = (Ok (set_send_status state sent_marker), w1).
Proof. unfold simulate_email_send. run_node. settle_world. Qed.

Lemma cycles_snoc (k : nat) :
  (cycles k ++ [email_generation; accuracy_check; revision])%list = cycles (S k).
Proof.
  induction k as [ | k IH ]; [ reflexivity | ].
  cbn [cycles app] in *. now rewrite IH.
Qed.

(** With the fixed record and a perfect evaluation no key of the page is
    missing. *)
Lemma no_missing_key (state : EmailState) :
  parsed_data state = fixed_parsed_data ->
  perfect_evaluation (accuracy_score state) = true ->
  first_missing_key state = None.
Proof.
  intros Hparsed Hperfect. unfold first_missing_key.
  destruct (perfect_has_score _ Hperfect) as (score & ->).
  rewrite Hparsed. reflexivity.
Qed.

Ltac trace_eq :=
  cbn [trail app]; rewrite <- ?app_assoc; cbn [app]; reflexivity.

Lemma on_track_step (text : string) (w0 : World) :
  forall n state visited w state1 w1 n' w2,
    on_track text w0 n state visited w ->
    node_function E n state w = (Ok state1, w1) ->
    next_target E n state1 w1 = (Ok (Node n'), w2) ->
    on_track text w0 n' state1 (visited ++ [n])%list w2.
Proof.
  intros n state visited w state1 w1 n' w2 Hinv Hnode Hedge.
  destruct (next_target_frame E n state1 w1)
    as (t & w2' & Hedge' & Hl2 & Hs2 & Hf2 & Ht).
  rewrite Hedge in Hedge'. injection Hedge' as <- <-.
  destruct n; cbn [node_function] in Hnode; try discriminate Ht;
    injection Ht as ->.
  - (* input_processing *)
    destruct Hinv as (-> & -> & ->).
    destruct (process_input_result (initial_state text) w0)
      as (w1' & Hl & Hs & Hf & Hrun).
    rewrite Hnode in Hrun. injection Hrun as -> <-.
    exists 0. cbn [on_track trail calls_behind cycles app].
    rewrite Hl2, Hs2, Hf2, Hl, Hs, Hf, app_nil_r.
    repeat split. lia.
  - (* email_generation *)
    destruct Hinv as (k & -> & Hl & Hf & Hs & Hp & Hu & Ha).
    destruct (generate_email_cases E state w) as (w1' & Hl1 & Hs1 & Hf1 & Hrun).
    rewrite Hnode in Hrun.
    destruct (llm E _ _) as [ draft | ]; [ | discriminate ].
    injection Hrun as -> <-.
    exists k. cbn [calls_behind approval] in *.
    rewrite Hl2, Hs2, Hf2, Hl1, Hs1, Hf1, length_app, Hl.
    split; [ trace_eq | ]. split; [ cbn; lia | ]. repeat split; assumption.
  - (* accuracy_check *)
    destruct Hinv as (k & -> & Hl & Hf & Hs & Hp & Hu & Ha).
    destruct (check_accuracy_cases E state w) as (w1' & Hl1 & Hs1 & Hf1 & Hrun).
    rewrite Hnode in Hrun.
    assert (exists evaluation, state1 = set_accuracy_score state evaluation
                               /\ w1 = w1') as (evaluation & -> & ->).
    { destruct (llm E _ _) as [ response | ]; [ | discriminate ].
      destruct (json_loads E response) as [ [ | | | | | | d ] | ];
        try discriminate.
      - destruct (dict_lookup "overall_score" d); [ | discriminate ].
        injection Hrun as -> <-. now exists d.
      - injection Hrun as -> <-. now exists fallback_evaluation. }
    cbn [accuracy_score set_accuracy_score calls_behind approval] in *.
    destruct (perfect_evaluation evaluation) eqn:Hperfect;
      exists k; cbn [calls_behind approval accuracy_score set_accuracy_score
                     send_status parsed_data];
      rewrite Hl2, Hs2, Hf2, Hl1, Hs1, Hf1, length_app, Hl;
      (split; [ trace_eq | ]); (split; [ cbn; lia | ]);
      repeat split; assumption.
  - (* email_simulation *)
    destruct Hinv as (k & -> & Hl & Hf & Hs & Hp & Hu & Hperfect & Hstatus).
    destruct (simulate_email_send_result state w) as (w1' & Hl1 & Hs1 & Hf1 & Hrun).
    rewrite Hnode in Hrun. injection Hrun as -> <-.
    exists k. cbn [calls_behind approval accuracy_score set_send_status
                   send_status parsed_data] in *.
    rewrite Hl2, Hs2, Hf2, Hl1, Hs1, Hf1, Hl.
    split; [ trace_eq | ]. repeat split; assumption.
  - (* result_output *)
    destruct Hinv as (k & -> & Hl & Hf & Hs & Hp & Hu & Hperfect & Hstatus).
    destruct (output_result_cases E state w) as (w1' & Hl1 & Hf1 & Hrun).
    destruct (perfect_has_score _ Hperfect) as (score & Hscore).
    rewrite Hscore in Hrun. destruct Hrun as (summary & Hrun & Hs1).
    rewrite Hnode in Hrun. injection Hrun as -> <-.
    exists k. cbn [calls_behind approval accuracy_score set_result_summary
                   send_status parsed_data result_summary] in *.
    rewrite Hl2, Hs2, Hf2, Hl1, Hs1, Hf1, Hl, Hs, app_nil_r.
    split; [ trace_eq | ]. repeat split; assumption.
  - (* revision *)
    destruct Hinv as (k & -> & Hl & Hf & Hs & Hp & Hu & Ha).
    destruct (revise_email_ok E state w) as (w1' & Hrun & Hl1 & Hs1 & Hf1 & _).
    rewrite Hnode in Hrun. injection Hrun as -> <-.
    exists (S k). cbn [calls_behind approval] in *.
    rewrite Hl2, Hs2, Hf2, Hl1, Hs1, Hf1, Hl.
    split; [ | split; [ lia | repeat split; assumption ] ].
    cbn [trail app]. rewrite <- app_assoc. cbn [app].
    now rewrite cycles_snoc, app_nil_r.
Qed.

Lemma run_ends (text : string) (w0 : World) (fuel : nat) :
  exists n state visited w,
    on_track text w0 n state visited w
    /\ ends E n state visited w (run E fuel text w0).
Proof.
  apply (graph_invoke_ends (on_track text w0) (on_track_step text w0)).
  repeat split.
Qed.

(** Only the publish stage leads to END. *)
Lemma end_after_web_update (n : node) (state : EmailState) (w w' : World) :
  next_target E n state w = (Ok END, w') -> n = web_update.
Proof.
  intros Hedge.
  destruct (next_target_frame E n state w) as (t & w2 & Hedge' & _ & _ & _ & Ht).
  rewrite Hedge in Hedge'. injection Hedge' as <- <-.
  destruct n; try discriminate Ht. reflexivity.
Qed.

(** The shape of a finished run. *)
Lemma finished_run
    (fuel : nat) (text : string) (w0 w' : World)
    (final : EmailState) (visited : list node) :
  run E fuel text w0 = (Finished final, visited, w') ->
  exists k page,
    visited =
      (input_processing :: cycles k ++
         [ email_generation; accuracy_check; email_simulation;
           result_output; web_update ])%list
    /\ perfect_evaluation (accuracy_score final) = true
    /\ send_status final = "전송 완료 (시뮬레이션)"
    /\ user_input final = text
    /\ length (llm_prompts w') = length (llm_prompts w0) + 2 * k + 2
    /\ stdout w' = (stdout w0 ++ [result_summary final])%list
    /\ file_writes w' = (file_writes w0 ++ [("email_result.html", page)])%list.
Proof.
  intros Hrun.
  destruct (run_ends text w0 fuel) as (n & state & v & w & Hinv & Hends).
  rewrite Hrun in Hends. inversion Hends as [ | state1 w1 w2 Hnode Hedge | | ].
  subst.
  pose proof (end_after_web_update _ _ _ _ Hedge) as ->.
  destruct (next_target_frame E web_update final w1)
    as (t & w2 & Hedge' & Hl2 & Hs2 & Hf2 & _).
  rewrite Hedge in Hedge'. injection Hedge' as <- <-.
  destruct Hinv as (k & -> & Hl & Hf & Hs & Hp & Hu & Hperfect & Hstatus).
  cbn [node_function] in Hnode.
  destruct (update_web_page_cases E state w) as (w1' & Hl1 & Hs1 & Hcases).
  rewrite (no_missing_key state Hp Hperfect) in Hcases.
  destruct Hcases as (_ & Hcases).
  destruct (open_error E _ _);
    destruct Hcases as (Hpage & Hf1); rewrite Hnode in Hpage;
    [ discriminate | ].
  injection Hpage as -> <-. destruct Hf1 as (page & Hf1).
  exists k, page.
  rewrite Hl2, Hs2, Hf2, Hl1, Hs1, Hf1, Hl, Hs, Hf.
  split; [ trace_eq | ].
  repeat split; assumption.
Qed.

(** X5. A run that finishes, whatever the collaborators did: it went through
    some number [k] of turns of the revise loop and then once through
    generation, evaluation, send simulation, summary and publication; the
    evaluation it ends with is perfect and send_status is the marker, so
    nothing is marked as sent on a lesser evaluation; the model was called
    [2 * k + 2] times; the summary in the state is the one text printed,
    and the page is the one file written. *)
Theorem run_finished
    (fuel : nat) (text : string) (w0 w' : World)
    (final : EmailState) (visited : list node) :
  run E fuel text w0 = (Finished final, visited, w') ->
  exists k page,
    visited =
      (input_processing :: cycles k ++
         [ email_generation; accuracy_check; email_simulation;
           result_output; web_update ])%list
    /\ perfect_evaluation (accuracy_score final) = true
    /\ send_status final = "전송 완료 (시뮬레이션)"
    /\ user_input final = text
    /\ length (llm_prompts w') = length (llm_prompts w0) + 2 * k + 2
    /\ stdout w' = (stdout w0 ++ [result_summary final])%list
    /\ file_writes w' = (file_writes w0 ++ [("email_result.html", page)])%list.
Proof. exact (finished_run fuel text w0 w' final visited). Qed.

(** Where a run on track can raise, and what the raising node leaves. *)
Lemma node_raised (text : string) (w0 : World)
    (n : node) (state : EmailState) (visited : list node) (w w1 : World)
    (e : Exn) :
  on_track text w0 n state visited w ->
  node_function E n state w = (Raise e, w1) ->
  file_writes w1 = file_writes w0
  /\ stdout w1 = stdout w
  /\ llm_prompts w1 =
       (llm_prompts w ++
          match n with
          | email_generation => [generation_prompt E state]
          | accuracy_check => [accuracy_prompt E state]
          | _ => []
          end)%list
  /\ ((n = email_generation
       /\ llm E (length (llm_prompts w)) (generation_prompt E state) = Raise e)
      \/ (n = accuracy_check
          /\ (llm E (length (llm_prompts w)) (accuracy_prompt E state) = Raise e
              \/ e = KeyError "overall_score" \/ e = TypeError))
      \/ (n = web_update
          /\ open_error E (length (file_writes w0)) "email_result.html" = Some e)).
Proof.
  intros Hinv Hnode.
  destruct n; cbn [node_function] in Hnode.
  - (* input_processing *)
    destruct (process_input_result state w) as (w1' & _ & _ & _ & Hrun).
    rewrite Hnode in Hrun. discriminate.
  - (* email_generation *)
    destruct Hinv as (k & _ & _ & Hf & _).
    destruct (generate_email_cases E state w) as (w1' & Hl1 & Hs1 & Hf1 & Hrun).
    rewrite Hnode in Hrun.
    destruct (llm E _ _) as [ | e' ] eqn:Hllm; [ discriminate | ].
    injection Hrun as -> <-.
    rewrite Hf1, Hf. repeat split; trivial. left. now split.
  - (* accuracy_check *)
    destruct Hinv as (k & _ & _ & Hf & _).
    destruct (check_accuracy_cases E state w) as (w1' & Hl1 & Hs1 & Hf1 & Hrun).
    rewrite Hnode in Hrun.
    assert (w1 = w1'
            /\ (llm E (length (llm_prompts w)) (accuracy_prompt E state) = Raise e
                \/ e = KeyError "overall_score" \/ e = TypeError))
      as (-> & Hcause).
    { destruct (llm E _ _) as [ response | e' ].
      - destruct (json_loads E response) as [ [ | | | | | | d ] | ];
          try discriminate;
          try (injection Hrun as <- <-; split; [ reflexivity | tauto ]).
        destruct (dict_lookup "overall_score" d); [ discriminate | ].
        injection Hrun as <- <-. split; [ reflexivity | tauto ].
      - injection Hrun as <- <-. split; [ reflexivity | tauto ]. }
    rewrite Hf1, Hf. repeat split; trivial. right. left. now split.
  - (* email_simulation *)
    destruct (simulate_email_send_result state w) as (w1' & _ & _ & _ & Hrun).
    rewrite Hnode in Hrun. discriminate.
  - (* result_output *)
    destruct Hinv as (k & _ & _ & _ & _ & _ & _ & Hperfect & _).
    destruct (output_result_cases E state w) as (w1' & _ & _ & Hrun).
    destruct (perfect_has_score _ Hperfect) as (score & Hscore).
    rewrite Hscore in Hrun. destruct Hrun as (summary & Hrun & _).
    rewrite Hnode in Hrun. discriminate.
  - (* web_update *)
    destruct Hinv as (k & _ & _ & Hf & _ & Hp & _ & Hperfect & _).
    destruct (update_web_page_cases E state w) as (w1' & Hl1 & Hs1 & Hcases).
    rewrite (no_missing_key state Hp Hperfect) in Hcases.
    destruct Hcases as (_ & Hcases). rewrite Hf in Hcases.
    destruct (open_error E _ _) as [ e' | ];
      destruct Hcases as (Hpage & Hf1); rewrite Hnode in Hpage;
      [ | discriminate ].
    injection Hpage as -> <-.
    rewrite Hf1, Hl1, app_nil_r. repeat split; trivial.
    right. right. now split.
  - (* revision *)
    destruct (revise_email_ok E state w) as (w1' & Hrun & _).
    rewrite Hnode in Hrun. discriminate.
Qed.

Lemma edge_never_raises (n : node) (state : EmailState) (w w' : World) (e : Exn) :
  next_target E n state w = (Raise e, w') -> False.
Proof.
  intros Hedge.
  destruct (next_target_frame E n state w) as (t & w2 & Hedge' & _).
  rewrite Hedge in Hedge'. discriminate.
Qed.


(** What an unfinished run has done. *)
Lemma unfinished_run
    (fuel : nat) (text : string) (w0 w' : World)
    (o : outcome) (visited : list node) :
  run E fuel text w0 = (o, visited, w') ->
  (forall final, o <> Finished final) ->
  file_writes w' = file_writes w0
  /\ (stdout w' = stdout w0
      \/ (In result_output visited
          /\ exists summary, stdout w' = (stdout w0 ++ [summary])%list)).
Proof.
  intros Hrun Hunfinished.
  destruct (run_ends text w0 fuel) as (n & state & v & w & Hinv & Hends).
  rewrite Hrun in Hends.
  inversion Hends as [ | state1 w1 w2 Hnode Hedge | e w1 Hnode
                     | e state1 w1 w2 Hnode Hedge ]; subst.
  - (* the fuel ran out *)
    destruct n.
    + destruct Hinv as (_ & _ & ->). split; [ reflexivity | now left ].
    + destruct Hinv as (k & _ & _ & Hf & Hs & _).
      rewrite app_nil_r in Hs. split; [ exact Hf | now left ].
    + destruct Hinv as (k & _ & _ & Hf & Hs & _).
      rewrite app_nil_r in Hs. split; [ exact Hf | now left ].
    + destruct Hinv as (k & _ & _ & Hf & Hs & _).
      rewrite app_nil_r in Hs. split; [ exact Hf | now left ].
    + destruct Hinv as (k & _ & _ & Hf & Hs & _).
      rewrite app_nil_r in Hs. split; [ exact Hf | now left ].
    + destruct Hinv as (k & -> & _ & Hf & Hs & _).
      split; [ exact Hf | right ]. split; [ | eauto ].
      right. apply in_or_app. right. cbn. tauto.
    + destruct Hinv as (k & _ & _ & Hf & Hs & _).
      rewrite app_nil_r in Hs. split; [ exact Hf | now left ].
  - exfalso. now apply (Hunfinished state1).
  - (* a node raised *)
    destruct (node_raised text w0 n state v w w' e Hinv Hnode)
      as (Hf & Hs1 & _ & Hcause).
    split; [ exact Hf | ].
    destruct Hcause as [ (-> & _) | [ (-> & _) | (-> & _) ] ].
    + destruct Hinv as (k & _ & _ & _ & Hs & _).
      rewrite app_nil_r in Hs. left. congruence.
    + destruct Hinv as (k & _ & _ & _ & Hs & _).
      rewrite app_nil_r in Hs. left. congruence.
    + destruct Hinv as (k & -> & _ & _ & Hs & _).
      right. split; [ | exists (result_summary state); congruence ].
      apply in_or_app. left. right. apply in_or_app. right. cbn. tauto.
  - destruct (edge_never_raises _ _ _ _ _ Hedge).
Qed.

(** X7. Until a run has finished it has written no file, and it has printed
    nothing unless it has been through the summary stage, which lies
    behind the perfect evaluation: then the one text printed is the
    summary. *)
Theorem run_unfinished_writes_nothing
    (fuel : nat) (text : string) (w0 w' : World)
    (o : outcome) (visited : list node) :
  run E fuel text w0 = (o, visited, w') ->
  (forall final, o <> Finished final) ->
  file_writes w' = file_writes w0
  /\ (stdout w' = stdout w0
      \/ (In result_output visited
          /\ exists summary, stdout w' = (stdout w0 ++ [summary])%list)).
Proof. exact (unfinished_run fuel text w0 w' o visited). Qed.

(** The prompts a node submits, whether it returns or raises. *)
Lemma node_function_prompts (n : node) (state : EmailState) (w : World) :
  llm_prompts (snd (node_function E n state w)) =
  (llm_prompts w ++
     match n with
     | email_generation => [generation_prompt E state]
     | accuracy_check => [accuracy_prompt E state]
     | _ => []
     end)%list.
Proof.
  destruct n; cbn [node_function].
  - destruct (process_input_result state w) as (w1 & Hl & _ & _ & ->).
    cbn [snd]. now rewrite app_nil_r.
  - destruct (generate_email_cases E state w) as (w1 & Hl & _ & _ & ->).
    destruct (llm E _ _); exact Hl.
  - destruct (check_accuracy_cases E state w) as (w1 & Hl & _ & _ & ->).
    destruct (llm E _ _) as [ response | ]; [ | exact Hl ].
    destruct (json_loads E response) as [ [ | | | | | | d ] | ]; try exact Hl.
    destruct (dict_lookup "overall_score" d); exact Hl.
  - destruct (simulate_email_send_result state w) as (w1 & Hl & _ & _ & ->).
    cbn [snd]. now rewrite app_nil_r.
  - destruct (output_result_cases E state w) as (w1 & Hl & _ & Hrun).
    rewrite app_nil_r.
    destruct (dict_lookup "overall_score" (accuracy_score state)).
    + destruct Hrun as (summary & -> & _). exact Hl.
    + destruct Hrun as (-> & _). exact Hl.
  - destruct (update_web_page_cases E state w) as (w1 & Hl & _ & Hrun).
    rewrite app_nil_r.
    destruct (first_missing_key state).
    + destruct Hrun as (-> & _). exact Hl.
    + destruct Hrun as (_ & Hrun).
      destruct (open_error E _ _); destruct Hrun as (-> & _); exact Hl.
  - destruct (revise_email_ok E state w) as (w1 & -> & Hl & _).
    cbn [snd]. now rewrite app_nil_r.
Qed.

(** After input processing no node assigns user_input, current_date or
    parsed_data: the fields the generation prompt is made of. *)
Lemma node_keeps_prompt_fields
    (n : node) (state state1 : EmailState) (w w1 : World) :
  n <> input_processing ->
  node_function E n state w = (Ok state1, w1) ->
  user_input state1 = user_input state
  /\ current_date state1 = current_date state
  /\ parsed_data state1 = parsed_data state
  /\ (n = email_generation \/ generated_email state1 = generated_email state).
Proof.
  intros Hn Hnode.
  destruct n; try contradiction; cbn [node_function] in Hnode.
  - destruct (generate_email_cases E state w) as (w1' & _ & _ & _ & Hrun).
    rewrite Hnode in Hrun.
    destruct (llm E _ _); [ | discriminate ].
    injection Hrun as -> _. repeat split. now left.
  - destruct (check_accuracy_cases E state w) as (w1' & _ & _ & _ & Hrun).
    rewrite Hnode in Hrun.
    destruct (llm E _ _) as [ response | ]; [ | discriminate ].
    destruct (json_loads E response) as [ [ | | | | | | d ] | ];
      try discriminate.
    + destruct (dict_lookup "overall_score" d); [ | discriminate ].
      injection Hrun as -> _. repeat split. now right.
    + injection Hrun as -> _. repeat split. now right.
  - destruct (simulate_email_send_result state w) as (w1' & _ & _ & _ & Hrun).
    rewrite Hnode in Hrun. injection Hrun as -> _. repeat split. now right.
  - destruct (output_result_cases E state w) as (w1' & _ & _ & Hrun).
    destruct (dict_lookup "overall_score" (accuracy_score state)).
    + destruct Hrun as (summary & Hrun & _). rewrite Hnode in Hrun.
      injection Hrun as -> _. repeat split. now right.
    + destruct Hrun as (Hrun & _). rewrite Hnode in Hrun. discriminate.
  - apply update_web_page_inv in Hnode as (? & ? & ? & ? & -> & _).
    repeat split. now right.
  - destruct (revise_email_ok E state w) as (w1' & Hrun & _).
    rewrite Hnode in Hrun. injection Hrun as -> _. repeat split. now right.
Qed.

Lemma generation_prompt_fixed (text : string) (w0 : World) (state : EmailState) :
  user_input state = text ->
  current_date state = current_date (processed_state E text w0) ->
  parsed_data state = fixed_parsed_data ->
  generation_prompt E state = generation_prompt E (processed_state E text w0).
Proof.
  intros Hu Hd Hp. unfold generation_prompt. now rewrite Hu, Hd, Hp.
Qed.

Lemma exchanges_snoc (text : string) (w0 : World)
    (drafts : list string) (draft : string) :
  exchanges E text w0 (drafts ++ [draft]) =
  (exchanges E text w0 drafts ++
     [ generation_prompt E (processed_state E text w0);
       ACCURACY_CHECK_PROMPT E text draft ])%list.
Proof.
  unfold exchanges. rewrite flat_map_app. cbn [flat_map].
  now rewrite app_nil_r.
Qed.

Lemma prompts_on_track_step (text : string) (w0 : World) :
  forall n state visited w state1 w1 n' w2,
    prompts_on_track E text w0 n state visited w ->
    node_function E n state w = (Ok state1, w1) ->
    next_target E n state1 w1 = (Ok (Node n'), w2) ->
    prompts_on_track E text w0 n' state1 (visited ++ [n])%list w2.
Proof.
  intros n state visited w state1 w1 n' w2 Hinv Hnode Hedge.
  destruct (next_target_frame E n state1 w1)
    as (t & w2' & Hedge' & Hl2 & _ & _ & Ht).
  rewrite Hedge in Hedge'. injection Hedge' as <- <-.
  pose proof (node_function_prompts n state w) as Hl1.
  rewrite Hnode in Hl1. cbn [snd] in Hl1.
  destruct n; try discriminate Ht; injection Ht as ->.
  - (* input_processing *)
    destruct Hinv as (-> & ->).
    destruct (process_input_result (initial_state text) w0)
      as (w1' & _ & _ & _ & Hrun).
    cbn [node_function] in Hnode. rewrite Hnode in Hrun.
    injection Hrun as -> _.
    repeat split. exists []. rewrite Hl2, Hl1. reflexivity.
  - (* email_generation *)
    destruct Hinv as (Hu & Hd & Hp & drafts & Hl).
    apply node_keeps_prompt_fields in Hnode as (Hu1 & Hd1 & Hp1 & _);
      [ | discriminate ].
    cbn [prompts_on_track]. rewrite Hu1, Hd1, Hp1.
    repeat split; trivial. exists drafts.
    rewrite Hl2, Hl1, Hl, (generation_prompt_fixed text w0 state Hu Hd Hp).
    now rewrite app_nil_r, <- app_assoc.
  - (* accuracy_check *)
    destruct Hinv as (Hu & Hd & Hp & drafts & Hl).
    apply node_keeps_prompt_fields in Hnode as (Hu1 & Hd1 & Hp1 & _);
      [ | discriminate ].
    assert (llm_prompts w2 =
            (llm_prompts w0 ++
               exchanges E text w0 (drafts ++ [generated_email state]) ++ [])%list)
      as Hl'.
    { rewrite Hl2, Hl1, Hl, exchanges_snoc. unfold accuracy_prompt.
      rewrite Hu, app_nil_r, <- !app_assoc. reflexivity. }
    destruct (perfect_evaluation (accuracy_score state1));
      cbn [prompts_on_track]; rewrite Hu1, Hd1, Hp1;
      repeat split; trivial; eexists; exact Hl'.
  - (* email_simulation *)
    destruct Hinv as (Hu & Hd & Hp & drafts & Hl).
    apply node_keeps_prompt_fields in Hnode as (Hu1 & Hd1 & Hp1 & _);
      [ | discriminate ].
    cbn [prompts_on_track]. rewrite Hu1, Hd1, Hp1.
    repeat split; trivial. exists drafts.
    now rewrite Hl2, Hl1, Hl, app_nil_r.
  - (* result_output *)
    destruct Hinv as (Hu & Hd & Hp & drafts & Hl).
    apply node_keeps_prompt_fields in Hnode as (Hu1 & Hd1 & Hp1 & _);
      [ | discriminate ].
    cbn [prompts_on_track]. rewrite Hu1, Hd1, Hp1.
    repeat split; trivial. exists drafts.
    now rewrite Hl2, Hl1, Hl, app_nil_r.
  - (* revision *)
    destruct Hinv as (Hu & Hd & Hp & drafts & Hl).
    apply node_keeps_prompt_fields in Hnode as (Hu1 & Hd1 & Hp1 & _);
      [ | discriminate ].
    cbn [prompts_on_track]. rewrite Hu1, Hd1, Hp1.
    repeat split; trivial. exists drafts.
    now rewrite Hl2, Hl1, Hl, app_nil_r.
Qed.

(** X8. Every generation call of a run submits the same prompt, the one made
    from the state that input processing left: whatever the evaluations
    said, nothing of them reaches the model.  The prompts of a run are
    that prompt and the evaluation prompt for the draft that came back,
    in turn, with the raw input unchanged in each. *)
Theorem run_prompts
    (fuel : nat) (text : string) (w0 w' : World)
    (o : outcome) (visited : list node) :
  run E fuel text w0 = (o, visited, w') ->
  exists drafts pending,
    llm_prompts w' =
    (llm_prompts w0 ++
       flat_map
         (fun draft =>
            [ generation_prompt E (processed_state E text w0);
              ACCURACY_CHECK_PROMPT E text draft ])
         drafts ++ pending)%list
    /\ (pending = []
        \/ pending = [ generation_prompt E (processed_state E text w0) ]).
Proof.
  intros Hrun.
  destruct (graph_invoke_ends (prompts_on_track E text w0)
              (prompts_on_track_step text w0) fuel input_processing
              (initial_state text) [] w0 (conj eq_refl eq_refl))
    as (n & state & v & w & Hinv & Hends).
  fold (run E fuel text w0) in Hends. rewrite Hrun in Hends.
  fold (exchanges E text w0).
  (* the prompts at the node where the run ends *)
  assert (exists drafts,
             llm_prompts w =
             (llm_prompts w0 ++ exchanges E text w0 drafts ++
                match n with
                | accuracy_check =>
                    [generation_prompt E (processed_state E text w0)]
                | _ => []
                end)%list
             /\ (n = input_processing
                 \/ generation_prompt E state =
                      generation_prompt E (processed_state E text w0)
                    /\ user_input state = text)) as (drafts & Hl & Hfields).
  { destruct n;
      try (destruct Hinv as (Hu & Hd & Hp & drafts & Hl); exists drafts;
           split; [ exact Hl | right; split; [ | exact Hu ] ];
           now apply generation_prompt_fixed).
    destruct Hinv as (-> & ->). exists []. split; [ | now left ].
    cbn. now rewrite app_nil_r. }
  (* and after the last node, if there was one *)
  assert (forall r w1, node_function E n state w = (r, w1) ->
            exists drafts' pending,
              llm_prompts w1 =
              (llm_prompts w0 ++ exchanges E text w0 drafts' ++ pending)%list
              /\ (pending = []
                  \/ pending = [generation_prompt E (processed_state E text w0)]))
    as Hlast.
  { intros r w1 Hnode.
    pose proof (node_function_prompts n state w) as Hl1.
    rewrite Hnode in Hl1. cbn [snd] in Hl1. rewrite Hl1, Hl.
    destruct n;
      try (exists drafts, []; split; [ now rewrite !app_nil_r | now left ]).
    - (* email_generation *)
      destruct Hfields as [ Habs | (Hgp & _) ]; [ discriminate | ].
      exists drafts, [generation_prompt E (processed_state E text w0)].
      split; [ | now right ].
      now rewrite Hgp, app_nil_r, <- app_assoc.
    - (* accuracy_check *)
      destruct Hfields as [ Habs | (_ & Hu) ]; [ discriminate | ].
      exists (drafts ++ [generated_email state])%list, [].
      split; [ | now left ].
      rewrite exchanges_snoc. unfold accuracy_prompt.
      now rewrite Hu, app_nil_r, <- !app_assoc. }
  inversion Hends as [ | state1 w1 w2 Hnode Hedge | e w1 Hnode
                     | e state1 w1 w2 Hnode Hedge ]; subst.
  - exists drafts. eexists. split; [ exact Hl | ].
    destruct n; (now left) || (now right).
  - destruct (next_target_frame E n state1 w1)
      as (t & w2 & Hedge' & Hl2 & _).
    rewrite Hedge in Hedge'. injection Hedge' as _ <-.
    rewrite Hl2. exact (Hlast _ _ Hnode).
  - exact (Hlast _ _ Hnode).
  - destruct (edge_never_raises _ _ _ _ _ Hedge).
Qed.

Lemma graph_invoke_model_calls (fuel : nat) :
  forall n state visited w,
    length (llm_prompts (snd (graph_invoke E fuel n state visited w)))
    + list_sum (map model_calls visited) =
    length (llm_prompts w)
    + list_sum (map model_calls (snd (fst (graph_invoke E fuel n state visited w)))).
Proof.
  induction fuel as [ | fuel IH ]; intros n state visited w; [ reflexivity | ].
  cbn [graph_invoke].
  pose proof (node_function_prompts n state w) as Hl1.
  assert (list_sum (map model_calls (visited ++ [n])) =
          list_sum (map model_calls visited) + model_calls n) as Hsum.
  { rewrite map_app, list_sum_app. cbn. lia. }
  assert (length (llm_prompts (snd (node_function E n state w))) =
          length (llm_prompts w) + model_calls n) as Hlen.
  { rewrite Hl1, length_app. destruct n; reflexivity. }
  destruct (node_function E n state w) as [ [ state1 | e ] w1 ];
    cbn [snd] in Hlen.
  - destruct (next_target_frame E n state1 w1)
      as (t & w2 & -> & Hl2 & _).
    destruct t as [ n' | ].
    + specialize (IH n' state1 (visited ++ [n])%list w2).
      rewrite Hsum, Hl2 in IH. lia.
    + cbn [fst snd]. rewrite Hsum, Hl2. lia.
  - cbn [fst snd]. rewrite Hsum. lia.
Qed.

(** X9. The model is called once at each visit of the generation stage and
    of the evaluation stage, the visit that raised included, and by
    nothing else in a run. *)
Theorem run_model_calls
    (fuel : nat) (text : string) (w0 w' : World)
    (o : outcome) (visited : list node) :
  run E fuel text w0 = (o, visited, w') ->
  length (llm_prompts w') =
  length (llm_prompts w0) + list_sum (map model_calls visited).
Proof.
  intros Hrun.
  pose proof (graph_invoke_model_calls fuel input_processing
                (initial_state text) [] w0) as H.
  fold (run E fuel text w0) in H. rewrite Hrun in H.
  cbn [fst snd] in H.
  change (list_sum (map model_calls [])) with 0 in H. lia.
Qed.

(** ** A model that answers by the prompt alone *)

Lemma check_accuracy_reads (state : EmailState) (w : World) :
  exists w1,
    llm_prompts w1 = (llm_prompts w ++ [accuracy_prompt E state])%list
    /\ check_accuracy E state w =
       (match read_evaluation E
                (llm E (length (llm_prompts w)) (accuracy_prompt E state)) with
        | Ok evaluation => Ok (set_accuracy_score state evaluation)
        | Raise e => Raise e
        end, w1).
Proof.
  destruct (check_accuracy_cases E state w) as (w1 & Hl & _ & _ & Hrun).
  exists w1. split; [ exact Hl | ]. rewrite Hrun. unfold read_evaluation.
  destruct (llm E _ _) as [ response | ]; [ | reflexivity ].
  destruct (json_loads E response) as [ [ | | | | | | d ] | ]; try reflexivity.
  destruct (dict_lookup "overall_score" d); reflexivity.
Qed.

(** One turn of the loop, for any evaluation that is not perfect, the
    fallback included. *)
Lemma imperfect_turn
    (fuel : nat) (state : EmailState) (visited : list node) (w : World)
    (draft : string) (evaluation : dict json) :
  llm E (length (llm_prompts w)) (generation_prompt E state) = Ok draft ->
  read_evaluation E
    (llm E (S (length (llm_prompts w)))
       (accuracy_prompt E (set_generated_email state draft))) = Ok evaluation ->
  perfect_evaluation evaluation = false ->
  exists w',
    graph_invoke E (3 + fuel) email_generation state visited w =
    graph_invoke E fuel email_generation
      (set_accuracy_score (set_generated_email state draft) evaluation)
      (visited ++ [email_generation; accuracy_check; revision])%list w'.
Proof.
  intros Hdraft Hread Himperfect.
  destruct (generate_email_ok E state w draft Hdraft) as (w1 & Hn1 & Hl1 & _).
  set (s1 := set_generated_email state draft) in *.
  destruct (check_accuracy_reads s1 w1) as (w2 & _ & Hn2).
  rewrite Hl1, length_app, Nat.add_comm in Hn2. cbn [length Nat.add] in Hn2.
  rewrite Hread in Hn2.
  set (s2 := set_accuracy_score s1 evaluation) in *.
  destruct (next_target_accuracy_check E s2 w2) as (w3 & He2 & _).
  cbn [s2 accuracy_score set_accuracy_score] in He2.
  rewrite Himperfect in He2.
  destruct (revise_email_ok E s2 w3) as (w4 & Hn4 & _).
  exists w4. cbn [Nat.add].
  rewrite (graph_invoke_step E _ email_generation accuracy_check
             _ _ _ _ w1 w1 Hn1 eq_refl).
  rewrite (graph_invoke_step E _ accuracy_check revision _ _ _ _ _ _ Hn2 He2).
  rewrite (graph_invoke_step E _ revision email_generation
             _ _ _ _ w4 w4 Hn4 eq_refl).
  now rewrite <- !app_assoc.
Qed.

Section SameAnswers.

Variables (text : string) (w0 : World) (draft : string) (evaluation : dict json).

Hypothesis same_answers : deterministic E.

Hypothesis first_draft :
  llm E 0 (generation_prompt E (processed_state E text w0)) = Ok draft.

Hypothesis first_evaluation :
  read_evaluation E (llm E 0 (ACCURACY_CHECK_PROMPT E text draft)) =
  Ok evaluation.

Hypothesis not_perfect : perfect_evaluation evaluation = false.

Lemma draft_again (state : EmailState) (w : World) :
  prompt_fields E text w0 state ->
  llm E (length (llm_prompts w)) (generation_prompt E state) = Ok draft.
Proof.
  intros (Hu & Hd & Hp).
  rewrite (generation_prompt_fixed text w0 state Hu Hd Hp).
  rewrite (same_answers _ 0). exact first_draft.
Qed.

Lemma evaluation_again (state : EmailState) (w : World) :
  prompt_fields E text w0 state ->
  read_evaluation E
    (llm E (S (length (llm_prompts w)))
       (accuracy_prompt E (set_generated_email state draft))) = Ok evaluation.
Proof.
  intros (Hu & _). unfold accuracy_prompt.
  cbn [user_input generated_email set_generated_email].
  rewrite Hu, (same_answers _ 0). exact first_evaluation.
Qed.

Lemma same_turns (k : nat) :
  forall (fuel : nat) (state : EmailState) (visited : list node) (w : World),
    prompt_fields E text w0 state ->
    exists state' w',
      prompt_fields E text w0 state'
      /\ graph_invoke E (3 * k + fuel) email_generation state visited w =
         graph_invoke E fuel email_generation state' (visited ++ cycles k)%list w'.
Proof.
  induction k as [ | k IH ]; intros fuel state visited w Hfields.
  - exists state, w. cbn [cycles Nat.mul Nat.add].
    rewrite app_nil_r. now split.
  - destruct (imperfect_turn (3 * k + fuel) state visited w draft evaluation
                (draft_again state w Hfields) (evaluation_again state w Hfields)
                not_perfect) as (w1 & Hturn).
    destruct (IH fuel
                (set_accuracy_score (set_generated_email state draft) evaluation)
                (visited ++ [email_generation; accuracy_check; revision])%list w1)
      as (state' & w' & Hfields' & Hrest).
    { exact Hfields. }
    exists state', w'. split; [ exact Hfields' | ].
    replace (3 * S k + fuel) with (3 + (3 * k + fuel)) by lia.
    rewrite Hturn, Hrest. cbn [cycles]. now rewrite <- app_assoc.
Qed.

Lemma same_partial_turn (r : nat)
    (state : EmailState) (visited : list node) (w : World) :
  r < 3 ->
  prompt_fields E text w0 state ->
  exists n state' visited' w',
    graph_invoke E r email_generation state visited w =
    (Running n state', visited', w').
Proof.
  intros Hr Hfields.
  destruct (generate_email_ok E state w draft (draft_again state w Hfields))
    as (w1 & Hn1 & Hl1 & _).
  destruct (check_accuracy_reads (set_generated_email state draft) w1)
    as (w2 & _ & Hn2).
  rewrite Hl1, length_app, Nat.add_comm in Hn2. cbn [length Nat.add] in Hn2.
  rewrite (evaluation_again state w Hfields) in Hn2.
  destruct (next_target_accuracy_check E
              (set_accuracy_score (set_generated_email state draft) evaluation)
              w2) as (w3 & He2 & _).
  cbn [accuracy_score set_accuracy_score] in He2. rewrite not_perfect in He2.
  destruct r as [ | [ | [ | r ] ] ]; [ | | | lia ].
  - eexists _, _, _, _. reflexivity.
  - rewrite (graph_invoke_step E _ email_generation accuracy_check
               _ _ _ _ w1 w1 Hn1 eq_refl).
    eexists _, _, _, _. reflexivity.
  - rewrite (graph_invoke_step E _ email_generation accuracy_check
               _ _ _ _ w1 w1 Hn1 eq_refl).
    rewrite (graph_invoke_step E _ accuracy_check revision _ _ _ _ _ _ Hn2 He2).
    eexists _, _, _, _. reflexivity.
Qed.

Lemma same_answers_never_stop (fuel : nat) :
  exists n state visited w,
    run E fuel text w0 = (Running n state, visited, w).
Proof.
  destruct fuel as [ | fuel ]; [ eexists _, _, _, _; reflexivity | ].
  destruct (process_input_result (initial_state text) w0)
    as (w1 & _ & _ & _ & Hn1).
  fold (processed_state E text w0) in Hn1.
  unfold run.
  rewrite (graph_invoke_step E _ input_processing email_generation
             _ _ _ _ w1 w1 Hn1 eq_refl).
  rewrite (Nat.div_mod_eq fuel 3).
  assert (prompt_fields E text w0 (processed_state E text w0)) as Hfields
    by (repeat split).
  destruct (same_turns (fuel / 3) (fuel mod 3) (processed_state E text w0)
              ([] ++ [input_processing])%list w1 Hfields)
    as (state' & w' & Hfields' & Hturns).
  rewrite Hturns.
  apply same_partial_turn; [ | exact Hfields' ].
  apply Nat.mod_upper_bound. discriminate.
Qed.

End SameAnswers.

(** What stands behind a run that is at the revision stage after three
    nodes. *)
Lemma first_turn_to_revision
    (text : string) (w0 w3 : World) (state : EmailState) (visited : list node) :
  run E 3 text w0 = (Running revision state, visited, w3) ->
  exists draft evaluation,
    llm E (length (llm_prompts w0))
      (generation_prompt E (processed_state E text w0)) = Ok draft
    /\ read_evaluation E
         (llm E (S (length (llm_prompts w0)))
            (ACCURACY_CHECK_PROMPT E text draft)) = Ok evaluation
    /\ perfect_evaluation evaluation = false.
Proof.
  unfold run. intros Hrun.
  destruct (process_input_result (initial_state text) w0)
    as (w1 & Hl1 & _ & _ & Hn1).
  fold (processed_state E text w0) in Hn1.
  rewrite (graph_invoke_step E _ input_processing email_generation
             _ _ _ _ w1 w1 Hn1 eq_refl) in Hrun.
  set (P := processed_state E text w0) in *.
  destruct (generate_email_cases E P w1) as (w2 & Hl2 & _ & _ & Hn2).
  rewrite Hl1 in Hn2.
  destruct (llm E (length (llm_prompts w0)) (generation_prompt E P))
    as [ draft | e ] eqn:Hdraft.
  2: { cbn [graph_invoke node_function] in Hrun. rewrite Hn2 in Hrun.
       discriminate. }
  rewrite (graph_invoke_step E _ email_generation accuracy_check
             _ _ _ _ w2 w2 Hn2 eq_refl) in Hrun.
  destruct (check_accuracy_reads (set_generated_email P draft) w2)
    as (w3' & _ & Hn3).
  rewrite Hl2, length_app, Nat.add_comm, Hl1 in Hn3.
  cbn [length Nat.add] in Hn3.
  change (accuracy_prompt E (set_generated_email P draft))
    with (ACCURACY_CHECK_PROMPT E text draft) in Hn3.
  destruct (read_evaluation E _) as [ evaluation | e ] eqn:Hread.
  2: { cbn [graph_invoke node_function] in Hrun. rewrite Hn3 in Hrun.
       discriminate. }
  destruct (next_target_accuracy_check E
              (set_accuracy_score (set_generated_email P draft) evaluation) w3')
    as (w4 & Hedge & _).
  cbn [accuracy_score set_accuracy_score] in Hedge.
  rewrite (graph_invoke_step E _ accuracy_check _ _ _ _ _ _ _ Hn3 Hedge) in Hrun.
  cbn [graph_invoke] in Hrun.
  exists draft, evaluation. repeat split; trivial.
  destruct (perfect_evaluation evaluation); [ discriminate | reflexivity ].
Qed.


End Runs.

(** * The entry point *)

(** What [main] prints before it starts the run *)
Lemma banner_printed (w : World) :
  let w1 :=
    snd ((print "🚀 이메일 생성 시스템 시작";;
          print ("입력: " ++ test_input);;
          print (string_times "=" 50)) w) in
  stdout w1 =
    (stdout w ++
       [ "🚀 이메일 생성 시스템 시작";
         "입력: 소나타, v2.1.3, ECU-2024";
         "==================================================" ])%list
  /\ file_writes w1 = file_writes w.
Proof.
  run_node. cbn [stdout file_writes].
  rewrite <- !app_assoc. split; reflexivity.
Qed.


(** * The further properties on the stand-ins *)

Lemma check_accuracy_wrong_shape_witness :
  llm forgetful 1 (accuracy_prompt forgetful (set_generated_email processed draft))
    = Ok "{}"
  /\ json_loads forgetful "{}" = Some (JObj [])
  /\ json_subscript (JObj []) "overall_score" = Raise (KeyError "overall_score")
  /\ exists w1,
       check_accuracy forgetful (set_generated_email processed draft)
         (mkWorld [ generation_prompt forgetful processed ] 2 [] [] []) =
       (Raise (KeyError "overall_score"), w1).
Proof.
  split; [ reflexivity | ]. split; [ reflexivity | ]. split; [ reflexivity | ].
  destruct (check_accuracy_wrong_shape forgetful
              (set_generated_email processed draft)
              (mkWorld [ generation_prompt forgetful processed ] 2 [] [] [])
              "{}" (JObj []) (KeyError "overall_score")
              eq_refl eq_refl eq_refl) as (_ & w1 & Hraise & _).
  exists w1. exact Hraise.
Defined.

Lemma check_accuracy_returns_witness :
  check_accuracy garbling processed fresh =
    (Ok (set_accuracy_score processed fallback_evaluation),
     snd (check_accuracy garbling processed fresh))
  /\ exists evaluation,
       set_accuracy_score processed fallback_evaluation =
         set_accuracy_score processed evaluation
       /\ exists score, dict_lookup "overall_score" evaluation = Some score.
Proof.
  assert (check_accuracy garbling processed fresh =
          (Ok (set_accuracy_score processed fallback_evaluation),
           snd (check_accuracy garbling processed fresh))) as Hrun
    by (vm_compute; reflexivity).
  split; [ exact Hrun | ].
  destruct (check_accuracy_returns garbling processed _ fresh _ Hrun)
    as (evaluation & Hstate & Hscore & _).
  exists evaluation. split; [ exact Hstate | exact Hscore ].
Defined.

Lemma run_finished_witness :
  exists final visited w',
    run approving 10 sample_input fresh = (Finished final, visited, w')
    /\ perfect_evaluation (accuracy_score final) = true
    /\ length (file_writes w') = 1.
Proof.
  assert (exists final visited w',
             run approving 10 sample_input fresh = (Finished final, visited, w'))
    as (final & visited & w' & Hrun)
    by (eexists; eexists; eexists; lazy; reflexivity).
  exists final, visited, w'. split; [ exact Hrun | ].
  destruct (run_finished approving 10 sample_input fresh w' final visited Hrun)
    as (k & page & _ & Hperfect & _ & _ & _ & _ & Hfiles).
  split; [ exact Hperfect | ]. rewrite Hfiles. reflexivity.
Defined.


Lemma run_unfinished_writes_nothing_witness :
  exists o visited w',
    run demanding 5 sample_input fresh = (o, visited, w')
    /\ (forall final, o <> Finished final)
    /\ file_writes w' = file_writes fresh.
Proof.
  assert (exists n state visited w',
             run demanding 5 sample_input fresh = (Running n state, visited, w'))
    as (n & state & visited & w' & Hrun)
    by (eexists; eexists; eexists; eexists; lazy; reflexivity).
  exists (Running n state), visited, w'.
  split; [ exact Hrun | ].
  assert (forall final, Running n state <> Finished final) as Hunfinished
    by (intros final; discriminate).
  split; [ exact Hunfinished | ].
  exact (proj1 (run_unfinished_writes_nothing demanding 5 sample_input fresh w'
                  _ visited Hrun Hunfinished)).
Defined.

Lemma run_prompts_witness :
  exists o visited w',
    run demanding 7 sample_input fresh = (o, visited, w')
    /\ exists drafts pending,
         llm_prompts w' =
         (llm_prompts fresh ++
            flat_map
              (fun draft =>
                 [ generation_prompt demanding
                     (processed_state demanding sample_input fresh);
                   ACCURACY_CHECK_PROMPT demanding sample_input draft ])
              drafts ++ pending)%list
         /\ (pending = []
             \/ pending =
                [ generation_prompt demanding
                    (processed_state demanding sample_input fresh) ]).
Proof.
  exists (fst (fst (run demanding 7 sample_input fresh))),
    (snd (fst (run demanding 7 sample_input fresh))),
    (snd (run demanding 7 sample_input fresh)).
  assert (run demanding 7 sample_input fresh =
          (fst (fst (run demanding 7 sample_input fresh)),
           snd (fst (run demanding 7 sample_input fresh)),
           snd (run demanding 7 sample_input fresh))) as Hrun
    by (destruct (run demanding 7 sample_input fresh) as [ [ ? ? ] ? ];
        reflexivity).
  split; [ exact Hrun | ].
  exact (run_prompts demanding 7 sample_input fresh _ _ _ Hrun).
Defined.

Lemma run_model_calls_witness :
  exists o visited w',
    run demanding 7 sample_input fresh = (o, visited, w')
    /\ length (llm_prompts w') = 4.
Proof.
  assert (exists o visited w',
             run demanding 7 sample_input fresh = (o, visited, w')
             /\ list_sum (map model_calls visited) = 4)
    as (o & visited & w' & Hrun & Hcalls)
    by (eexists; eexists; eexists; split; lazy; reflexivity).
  exists o, visited, w'. split; [ exact Hrun | ].
  rewrite (run_model_calls demanding 7 sample_input fresh w' o visited Hrun).
  rewrite Hcalls. reflexivity.
Defined.

Lemma stubborn_is_deterministic : deterministic stubborn.
Proof. intros k k' prompt. reflexivity. Defined.



(** * The order of the stages *)

(** X11. The nodes of any run, in the order of their execution: input
    processing once, then whole turns of generation, evaluation and
    revision, then a beginning of the path generation, evaluation, send
    simulation, summary, publication.  So revision is always followed by
    generation, nothing is simulated, summarized or published twice, and
    none of the three comes before the evaluation that precedes it. *)
Theorem run_order
    (E : Env) (fuel : nat) (text : string) (w0 w' : World)
    (o : outcome) (visited : list node) :
  run E fuel text w0 = (o, visited, w') ->
  visited = []
  \/ exists k begun rest,
       visited = (input_processing :: cycles k ++ begun)%list
       /\ (begun ++ rest)%list =
          [ email_generation; accuracy_check; email_simulation;
            result_output; web_update ].
Proof.
  intros Hrun.
  destruct (run_ends E text w0 fuel) as (n & state & v & w & Hinv & Hends).
  rewrite Hrun in Hends.
  (* where the run stands, and one node further *)
  assert (n = input_processing /\ v = []
          \/ exists k, v = (input_processing :: cycles k ++ trail n)%list)
    as Hstands.
  { destruct n; try (right; destruct Hinv as (k & -> & _); now exists k).
    left. destruct Hinv as (_ & -> & _). now split. }
  assert (n <> revision -> n <> input_processing ->
          exists k begun rest,
            (v ++ [n])%list = (input_processing :: cycles k ++ begun)%list
            /\ (begun ++ rest)%list =
               [ email_generation; accuracy_check; email_simulation;
                 result_output; web_update ]) as Hnext.
  { intros Hrev Hentry.
    destruct Hstands as [ (-> & _) | (k & ->) ]; [ contradiction | ].
    exists k, (trail n ++ [n])%list.
    destruct n; try contradiction; eexists;
      (split; [ cbn [trail app]; rewrite <- ?app_assoc; reflexivity
              | cbn [trail app]; reflexivity ]). }
  inversion Hends as [ | state1 w1 w2 Hnode Hedge | e w1 Hnode
                     | e state1 w1 w2 Hnode Hedge ]; subst.
  - (* the fuel ran out *)
    destruct Hstands as [ (_ & ->) | (k & ->) ]; [ now left | right ].
    exists k, (firstn (length (trail n))
                 [ email_generation; accuracy_check; email_simulation;
                   result_output; web_update ]),
      (skipn (length (trail n))
         [ email_generation; accuracy_check; email_simulation;
           result_output; web_update ]).
    split; [ | apply firstn_skipn ].
    destruct n; reflexivity.
  - (* END comes after the publish stage *)
    right. pose proof (end_after_web_update E _ _ _ _ Hedge) as ->.
    apply Hnext; discriminate.
  - (* a node raised: generation, evaluation or publication *)
    right.
    destruct (node_raised E text w0 n state v w w' e Hinv Hnode)
      as (_ & _ & _ & [ (-> & _) | [ (-> & _) | (-> & _) ] ]);
      apply Hnext; discriminate.
  - destruct (edge_never_raises E _ _ _ _ _ Hedge).
Qed.

Lemma run_order_witness :
  exists o visited w',
    run demanding 6 sample_input fresh = (o, visited, w')
    /\ (visited = []
        \/ exists k begun rest,
             visited = (input_processing :: cycles k ++ begun)%list
             /\ (begun ++ rest)%list =
                [ email_generation; accuracy_check; email_simulation;
                  result_output; web_update ]).
Proof.
  exists (fst (fst (run demanding 6 sample_input fresh))),
    (snd (fst (run demanding 6 sample_input fresh))),
    (snd (run demanding 6 sample_input fresh)).
  assert (run demanding 6 sample_input fresh =
          (fst (fst (run demanding 6 sample_input fresh)),
           snd (fst (run demanding 6 sample_input fresh)),
           snd (run demanding 6 sample_input fresh))) as Hrun
    by (destruct (run demanding 6 sample_input fresh) as [ [ ? ? ] ? ];
        reflexivity).
  split; [ exact Hrun | ].
  exact (run_order demanding 6 sample_input fresh _ _ _ Hrun).
Defined.
